(** * fiftyone.core.session: the session lifecycle and its state pushes

    A shallow embedding of [fiftyone/core/session.py].  The module keeps
    three globals ([_session], [_server_services], [_subscribed_sessions]),
    a [Session] class whose mutators are wrapped by the [_update_state]
    decorator, and the notebook display helpers.  Everything the Python
    code does to the outside world (starting or stopping a server, pushing
    the state through the client, logging, rendering a frame) is recorded
    as an [Event] in the order in which it happens.  A call to a
    collaborator (a reload of a dataset, the listing of the catalog, the
    client's push, a renderer, a service, the browser) is such an event
    and is taken to return; in the code an exception of a collaborator
    propagates from the call, and those runs are outside the embedding.
    The exceptions the file raises itself are all here. *)

From Stdlib Require Import ZArith QArith List Lia.
From stdpp Require Import base option list strings gmap sets pretty.

Local Open Scope string_scope.
Local Open Scope list_scope.
Local Open Scope Z_scope.

(** ** Collaborators and plain data *)

(** [fiftyone.core.context]: the three execution contexts. *)
Inductive ExecContext : Type :=
  | _NONE
  | _IPYTHON
  | _COLAB.

#[global] Instance ExecContext_eq_dec : EqDecision ExecContext.
Proof. solve_decision. Defined.

(** A [fiftyone.core.dataset.Dataset]; only its identity matters here. *)
Record Dataset : Type := mkDataset { dataset_name : string }.

(** A [fiftyone.core.view.DatasetView] with the back-reference [_dataset]. *)
Record DatasetView : Type := mkView {
  _dataset : Dataset;
  view_stages : list string
}.

(** An entry of [state.selected_objects]. *)
Record SelectedObject : Type := mkSelectedObject {
  object_id : string;
  sample_id : string;
  field : string;
  frame_number : option Z
}.

(** The fields of [fiftyone.core.state.StateDescription] that
    [session.py] reads or writes. *)
Record StateDescription : Type := mkState {
  datasets : list string;
  dataset : option Dataset;
  view : option DatasetView;
  selected : list string;
  selected_objects : list SelectedObject;
  filters : gmap string string;
  close : bool
}.

Definition with_datasets (x : list string) (st : StateDescription) :=
  mkState x (dataset st) (view st) (selected st) (selected_objects st)
          (filters st) (close st).
Definition with_dataset (x : option Dataset) (st : StateDescription) :=
  mkState (datasets st) x (view st) (selected st) (selected_objects st)
          (filters st) (close st).
Definition with_view (x : option DatasetView) (st : StateDescription) :=
  mkState (datasets st) (dataset st) x (selected st) (selected_objects st)
          (filters st) (close st).
Definition with_selected (x : list string) (st : StateDescription) :=
  mkState (datasets st) (dataset st) (view st) x (selected_objects st)
          (filters st) (close st).
Definition with_selected_objects (x : list SelectedObject)
    (st : StateDescription) :=
  mkState (datasets st) (dataset st) (view st) (selected st) x
          (filters st) (close st).
Definition with_filters (x : gmap string string) (st : StateDescription) :=
  mkState (datasets st) (dataset st) (view st) (selected st)
          (selected_objects st) x (close st).
Definition with_close (x : bool) (st : StateDescription) :=
  mkState (datasets st) (dataset st) (view st) (selected st)
          (selected_objects st) (filters st) x.

(** Modelled from the spec: [foc.HasClient.__init__] (in
    [fiftyone.core.client], not part of this file) installs the initial
    [state]; the spec says it is "created at Session construction with
    empty defaults". *)
Definition empty_state : StateDescription :=
  mkState [] None None [] [] ∅ false.

(** What the module reads from its surroundings during one call. *)
Record Env : Type := mkEnv {
  _get_context : ExecContext;          (* focx._get_context() *)
  list_datasets : list string;         (* fod.list_datasets() *)
  config_desktop_app : bool;           (* fo.config.desktop_app *)
  config_do_not_track : bool;          (* fo.config.do_not_track *)
  DEV_INSTALL : bool;                  (* focn.DEV_INSTALL *)
  desktop_importable : bool;           (* import fiftyone.desktop works *)
  perf_counter : Q;                    (* time.perf_counter() *)
  proxyPort : Z -> string              (* google.colab.kernel.proxyPort *)
}.

(** ** Effects *)

Inductive Event : Type :=
  | EServerStart (port : Z) (do_not_track : bool) (* fos.ServerService(..) *)
  | EServerStop (port : Z)                        (* service.stop() *)
  | EClientInit (port : Z)                        (* super().__init__(port) *)
  | EClientDel                                    (* super().__del__() *)
  | EDatasetReload (d : Dataset)                  (* dataset._reload() *)
  | EDocReload (d : Dataset)                      (* dataset._doc.reload() *)
  | EListDatasets                                 (* fod.list_datasets() *)
  | EPush (st : StateDescription)                 (* self.state = self.state *)
  | EWarn (msg : string)                          (* logger.warn *)
  | EInfo (msg : string)                          (* logger.info *)
  | EPrint (msg : string)                         (* print *)
  | EDisplay (ctx : ExecContext) (port : Z) (height : Z)
                                                  (* IPython.display.display *)
  | EBrowserOpen (url : string)                   (* webbrowser.open *)
  | EAppServiceNew (port : Z)                     (* fos.AppService(..) *)
  | EAppServiceStart (port : Z).                  (* _app_service.start() *)

Inductive Exn : Type :=
  | ValueError (msg : string)
  | KeyError (ctx : ExecContext)
  | AttributeError (attr : string).

Inductive Outcome (A : Type) : Type :=
  | Ret (a : A)
  | Raise (e : Exn).
Arguments Ret {A} a.
Arguments Raise {A} e.

(** A computation over a store [S]: it returns or raises, leaves a store
    (assignments made before a [raise] stay), and reports the events it
    caused, oldest first. *)
Definition M (S A : Type) : Type := S -> Outcome A * S * list Event.

Definition ret {S A} (a : A) : M S A := fun s => (Ret a, s, []).

Definition bind {S A B} (m : M S A) (f : A -> M S B) : M S B :=
  fun s =>
    match m s with
    | (Ret a, s1, t1) =>
        match f a s1 with
        | (r, s2, t2) => (r, s2, t1 ++ t2)
        end
    | (Raise e, s1, t1) => (Raise e, s1, t1)
    end.

Definition raise {S A} (e : Exn) : M S A := fun s => (Raise e, s, []).
Definition emit {S} (e : Event) : M S unit := fun s => (Ret tt, s, [e]).
Definition gets {S A} (f : S -> A) : M S A := fun s => (Ret (f s), s, []).
Definition modify {S} (f : S -> S) : M S unit := fun s => (Ret tt, f s, []).

(** [try: m except: pass] *)
Definition try_pass {S} (m : M S unit) : M S unit :=
  fun s =>
    match m s with
    | (Ret _, s1, t1) => (Ret tt, s1, t1)
    | (Raise _, s1, t1) => (Ret tt, s1, t1)
    end.

Declare Scope py_scope.
Delimit Scope py_scope with py.
Notation "x <- m ;; k" := (bind m (fun x => k))
  (at level 100, m at next level, k at level 200) : py_scope.
Notation "m ;; k" := (bind m (fun _ => k))
  (at level 100, k at level 200) : py_scope.
Local Open Scope py_scope.

Definition outcome {S A} (r : Outcome A * S * list Event) : Outcome A :=
  fst (fst r).
Definition store {S A} (r : Outcome A * S * list Event) : S := snd (fst r).
Definition trace {S A} (r : Outcome A * S * list Event) : list Event := snd r.

(** ** The [Session] object *)

Record Session : Type := mkSession {
  _context : ExecContext;
  _port : Z;
  _remote : bool;
  _disable_wait_warning : bool;
  _auto : bool;
  _height : option Z;
  state : StateDescription;
  _desktop : option bool;          (* [None] until line 267 assigns it *)
  _start_time : option Q;          (* [None] until line 269 assigns it *)
  _app_service : option Z          (* the AppService, by its server port *)
}.

Definition with_state (f : StateDescription -> StateDescription)
    (s : Session) : Session :=
  mkSession (_context s) (_port s) (_remote s) (_disable_wait_warning s)
            (_auto s) (_height s) (f (state s)) (_desktop s) (_start_time s)
            (_app_service s).
Definition with__desktop (x : bool) (s : Session) : Session :=
  mkSession (_context s) (_port s) (_remote s) (_disable_wait_warning s)
            (_auto s) (_height s) (state s) (Some x) (_start_time s)
            (_app_service s).
Definition with__start_time (x : Q) (s : Session) : Session :=
  mkSession (_context s) (_port s) (_remote s) (_disable_wait_warning s)
            (_auto s) (_height s) (state s) (_desktop s) (Some x)
            (_app_service s).
Definition with__app_service (x : Z) (s : Session) : Session :=
  mkSession (_context s) (_port s) (_remote s) (_disable_wait_warning s)
            (_auto s) (_height s) (state s) (_desktop s) (_start_time s)
            (Some x).

(** Python's [height != 800]: [None] differs from every number. *)
Definition ne_800 (height : option Z) : bool :=
  match height with
  | Some h => negb (h =? 800)
  | None => true
  end.

Section Methods.

Variable env : Env.

(** [display] / [_display]: picks the renderer by the *current* context;
    the dictionary has no entry for [_NONE]. *)
Definition _display {S} (port : Z) (height : option Z) : M S unit :=
  let height := match height with None => 800 | Some h => h end in
  match _get_context env with
  | _COLAB => emit (EDisplay _COLAB port height)
  | _IPYTHON => emit (EDisplay _IPYTHON port height)
  | _NONE => raise (KeyError _NONE)
  end.

Definition display {S} (port : Z) (height : option Z) : M S unit :=
  _display port height.

(** The method [Session._update_state]: [self.state = self.state] hands the whole
    state to the client.  Modelled from the spec: the property setter is
    [foc.HasClient]'s (not in this file); the spec calls it a one-way push
    of the full snapshot. *)
Definition Session_update_state : M Session unit :=
  st <- gets state ;; emit (EPush st).

(** The module-level decorator [_update_state(func)]. *)
Definition _update_state {A} (func : M Session A) : M Session A :=
  result <- func ;;
  emit EListDatasets ;;
  modify (with_state (with_datasets (list_datasets env))) ;;
  Session_update_state ;;
  ret result.

(** The [dataset] property (getter). *)
Definition dataset_get (s : Session) : option Dataset :=
  match view (state s) with
  | Some v => Some (_dataset v)
  | None => dataset (state s)
  end.

Definition show_func (height : option Z) : M Session unit :=
  ctx <- gets _context ;;
  if decide (ctx = _NONE) then
    emit (EWarn "`Session.show()` is a no-op outside of notebooks")
  else
    d <- gets dataset_get ;;
    match d with
    | Some d => emit (EDocReload d)
    | None => ret tt
    end ;;
    emit EListDatasets ;;
    modify (with_state (with_datasets (list_datasets env))) ;;
    self_height <- gets _height ;;
    let height :=
      if ne_800 height then height
      else if ne_800 self_height then self_height
      else height in
    port <- gets _port ;;
    display port height.

Definition show (height : option Z) : M Session unit :=
  _update_state (show_func height).

Definition _auto_show : M Session unit :=
  ctx <- gets _context ;;
  auto <- gets _auto ;;
  if negb (bool_decide (ctx = _NONE)) && auto then show (Some 800)
  else ret tt.

Definition dataset_set_func (d : option Dataset) : M Session unit :=
  match d with
  | Some d => emit (EDatasetReload d)
  | None => ret tt
  end ;;
  modify (with_state (with_dataset d)) ;;
  modify (with_state (with_view None)) ;;
  modify (with_state (with_selected [])) ;;
  modify (with_state (with_selected_objects [])) ;;
  modify (with_state (with_filters ∅)) ;;
  _auto_show.

(** [session.dataset = d] *)
Definition dataset_set (d : option Dataset) : M Session unit :=
  _update_state (dataset_set_func d).

Definition clear_dataset : M Session unit :=
  _update_state (modify (with_state (with_dataset None))).

Definition view_set_func (v : option DatasetView) : M Session unit :=
  modify (with_state (with_view v)) ;;
  match v with
  | Some _ =>
      sv <- gets (fun s => view (state s)) ;;
      match sv with
      | Some sv =>
          modify (with_state (with_dataset (Some (_dataset sv)))) ;;
          emit (EDatasetReload (_dataset sv))
      | None => raise (AttributeError "_dataset")
      end
  | None => ret tt
  end ;;
  modify (with_state (with_selected [])) ;;
  modify (with_state (with_selected_objects [])) ;;
  modify (with_state (with_filters ∅)) ;;
  _auto_show.

(** [session.view = v] *)
Definition view_set (v : option DatasetView) : M Session unit :=
  _update_state (view_set_func v).

Definition clear_view : M Session unit :=
  _update_state (modify (with_state (with_view None)) ;; _auto_show).

Definition refresh : M Session unit :=
  _update_state _auto_show.

(** The [url] property. *)
Definition url (s : Session) : string :=
  if decide (_context s = _COLAB) then
    proxyPort env (_port s) +:+ "?fiftyoneColab=true"
  else "http://localhost:" +:+ pretty (_port s).

Definition open : M Session unit :=
  remote <- gets _remote ;;
  if remote : bool then
    raise (ValueError "Remote sessions cannot launch the FiftyOne App")
  else
    ctx <- gets _context ;;
    if negb (bool_decide (ctx = _NONE)) then
      raise (ValueError
        "Notebook sessions cannot launch the FiftyOne App; use `session.show()` instead")
    else
      desktop <- gets _desktop ;;
      match desktop with
      | None => raise (AttributeError "_desktop")
      | Some false => u <- gets url ;; emit (EBrowserOpen u)
      | Some true =>
          app <- gets _app_service ;;
          match app with
          | Some p => emit (EAppServiceStart p)
          | None => raise (AttributeError "_app_service")
          end
      end.

Definition close_ : M Session unit :=
  remote <- gets _remote ;;
  if remote : bool then ret tt
  else
    modify (with_state (with_close true)) ;;
    Session_update_state.

End Methods.

(** ** Module globals and object identity *)

(** Sessions are Python objects: the globals hold references to them, and
    [_subscribed_sessions] is a set of objects compared by identity. *)
Definition SessionId : Type := positive.

(** A [fiftyone.core.service.ServerService]. *)
Record ServerService : Type := mkServerService {
  service_port : Z;
  service_do_not_track : bool
}.

Record World : Type := mkWorld {
  heap : gmap positive Session;                 (* the live Session objects *)
  next_id : positive;                           (* identity of the next object *)
  _session : option positive;                   (* _session = None *)
  _server_services : gmap Z ServerService;      (* _server_services = {} *)
  _subscribed_sessions : gmap Z (gset positive) (* defaultdict(set) *)
}.

Definition with_heap (f : gmap positive Session -> gmap positive Session)
    (w : World) : World :=
  mkWorld (f (heap w)) (next_id w) (_session w) (_server_services w)
          (_subscribed_sessions w).
Definition with_next_id (x : positive) (w : World) : World :=
  mkWorld (heap w) x (_session w) (_server_services w)
          (_subscribed_sessions w).
Definition with__session (x : option positive) (w : World) : World :=
  mkWorld (heap w) (next_id w) x (_server_services w)
          (_subscribed_sessions w).
Definition with__server_services
    (f : gmap Z ServerService -> gmap Z ServerService) (w : World) : World :=
  mkWorld (heap w) (next_id w) (_session w) (f (_server_services w))
          (_subscribed_sessions w).
Definition with__subscribed_sessions
    (f : gmap Z (gset positive) -> gmap Z (gset positive)) (w : World)
    : World :=
  mkWorld (heap w) (next_id w) (_session w) (_server_services w)
          (f (_subscribed_sessions w)).

(** The interpreter state right after the module is imported. *)
Definition initial_world : World := mkWorld ∅ 1%positive None ∅ ∅.

(** [_subscribed_sessions[port]] as a value; a missing key of the
    [defaultdict] reads as the empty set. *)
Definition subscribers (m : gmap Z (gset positive)) (port : Z)
    : gset positive :=
  default ∅ (m !! port).

(** Runs a method on the object [self] and writes the object back, also
    when the method raises. *)
Definition on_session {A} (self : SessionId) (m : M Session A)
    : M World A :=
  fun w =>
    match heap w !! self with
    | Some s =>
        match m s with
        | (r, s1, t) => (r, with_heap (<[self := s1]>) w, t)
        end
    | None => (Raise (AttributeError "self"), w, [])
    end.

(** A new object, with the attributes assigned on lines 236-244. *)
Definition new_session (s : Session) : M World SessionId :=
  fun w =>
    (Ret (next_id w),
     with_next_id (Pos.succ (next_id w)) (with_heap (<[next_id w := s]>) w),
     []).

Definition _WAIT_INSTRUCTIONS : string :=
  "
A session appears to have terminated shortly after it was started. If you
intended to start an App instance or a remote session from a script, you should
call `session.wait()` to keep the session (and the script) alive.
".

(** [_APP_DESKTOP_MESSAGE.strip()] *)
Definition _APP_DESKTOP_MESSAGE : string := "Desktop App launched.".

(** [_APP_WEB_MESSAGE.strip().format(port)] *)
Definition _APP_WEB_MESSAGE (port : Z) : string :=
  "App launched. Point your web browser to http://localhost:" +:+ pretty port.

(** [_APP_NOTEBOOK_MESSAGE.strip()] *)
Definition _APP_NOTEBOOK_MESSAGE : string :=
  "Session launched. Run `session.show()` to open the App in a cell output.".

(** [_REMOTE_INSTRUCTIONS.strip().format(port)] *)
Definition _REMOTE_INSTRUCTIONS (port : Z) : string :=
  "You have launched a remote App on port " +:+ pretty port +:+
  ". To connect to this App from another
machine, issue the following command:

fiftyone app connect --destination [<username>@]<hostname> --port " +:+
  pretty port +:+ "

where `[<username>@]<hostname>` refers to your current machine. Alternatively,
you can manually configure port forwarding on another machine as follows:

ssh -N -L 5151:127.0.0.1:" +:+ pretty port +:+ " [<username>@]<hostname>

The App can then be viewed in your browser at http://localhost:5151.

See https://voxel51.com/docs/fiftyone/user_guide/app.html#remote-sessions
for more information about remote sessions.".

(** The object as lines 236-244 leave it. *)
Definition blank_session (env : Env) (port : Z) (remote auto : bool)
    (height : option Z) : Session :=
  mkSession (_get_context env) port remote false auto height empty_state
            None None None.

Section Lifecycle.

Variable env : Env.

(** Lines 246-253 of [Session.__init__]: start the server of [port]
    unless one is registered, then subscribe [self]. *)
Definition acquire (port : Z) (self : SessionId) : M World unit :=
  services <- gets _server_services ;;
  match services !! port with
  | None =>
      emit (EServerStart port (config_do_not_track env)) ;;
      modify (with__server_services
                (<[port := mkServerService port (config_do_not_track env)]>))
  | Some _ => ret tt
  end ;;
  modify (with__subscribed_sessions
            (fun m => <[port := {[self]} ∪ subscribers m port]> m)).

(** Lines 254-295 of [Session.__init__], which only touch [self]. *)
Definition __init__self (dataset : option Dataset)
    (view : option DatasetView) (desktop : option bool) : M Session unit :=
  port <- gets _port ;;
  emit (EClientInit port) ;;
  modify (with_state (fun _ => empty_state)) ;;
  match view with
  | Some v => view_set env (Some v)
  | None =>
      match dataset with
      | Some d => dataset_set env (Some d)
      | None => ret tt
      end
  end ;;
  ctx <- gets _context ;;
  let desktop :=
    match desktop with
    | None =>
        if decide (ctx = _NONE) then config_desktop_app env else false
    | Some b => b
    end in
  modify (with__desktop desktop) ;;
  modify (with__start_time (perf_counter env)) ;;
  remote <- gets _remote ;;
  if remote && negb (bool_decide (ctx = _NONE)) then
    raise (ValueError "Remote sessions cannot be run from a notebook")
  else if remote then ret tt
  else if decide (ctx = _NONE) then
    if desktop then
      (if desktop_importable env then ret tt
       else if negb (DEV_INSTALL env) then
         raise (ValueError
           "You must install the 'fiftyone-desktop' package in order to launch a desktop App instance")
       else ret tt) ;;
      emit (EAppServiceNew port) ;;
      modify (with__app_service port)
    else open env
  else if desktop then
    raise (ValueError
      "Cannot open a Desktop App instance from a notebook. Use `session.show()` to open the App.")
  else ret tt.

(** [Session(dataset, view, port, remote, desktop, auto, height)] *)
Definition __init__ (dataset : option Dataset) (view : option DatasetView)
    (port : Z) (remote : bool) (desktop : option bool) (auto : bool)
    (height : option Z) : M World SessionId :=
  self <- new_session (blank_session env port remote auto height) ;;
  acquire port self ;;
  on_session self (__init__self dataset view desktop) ;;
  ret self.

(** Lines 314-321 of [Session.__del__]: unsubscribe [self]; stop and
    forget the server when nobody is left. *)
Definition release (port : Z) (self : SessionId) : M World unit :=
  modify (with__subscribed_sessions
            (fun m => <[port := subscribers m port ∖ {[self]}]> m)) ;;
  subscribed <- gets _subscribed_sessions ;;
  if decide (size (subscribers subscribed port) = 0%nat) then
    services <- gets _server_services ;;
    match services !! port with
    | Some service =>
        modify (with__server_services (delete port)) ;;
        emit (EServerStop (service_port service))
    | None => ret tt
    end
  else ret tt.

(** [Session.__del__], for the object [self]. *)
Definition __del__ (self : SessionId) : M World unit :=
  try_pass (
    disabled <- on_session self (gets _disable_wait_warning) ;;
    (if negb disabled then
       start <- on_session self (gets _start_time) ;;
       match start with
       | Some t0 =>
           if negb (Qle_bool (5 # 2) (perf_counter env - t0)) then
             emit (EPrint _WAIT_INSTRUCTIONS)
           else ret tt
       | None => raise (AttributeError "_start_time")
       end
     else ret tt) ;;
    port <- on_session self (gets _port) ;;
    release port self) ;;
  emit EClientDel.

(** [close_app()]: the only thing done to the old session is
    [_session.close()]; the module-level name is then rebound.  The
    object itself is still a member of [_subscribed_sessions[port]], and
    that membership is a reference to it, so dropping [_session] never
    makes it collectable: no [__del__] runs here. *)
Definition close_app : M World unit :=
  cur <- gets _session ;;
  match cur with
  | Some s => on_session s (close_ ) ;; modify (with__session None)
  | None => ret tt
  end.

(** [launch_app(dataset, view, port, remote, desktop, auto, height)] *)
Definition launch_app (dataset : option Dataset) (view : option DatasetView)
    (port : Z) (remote : bool) (desktop : option bool) (auto : bool)
    (height : option Z) : M World SessionId :=
  close_app ;;
  s <- __init__ dataset view port remote desktop auto height ;;
  modify (with__session (Some s)) ;;
  is_remote <- on_session s (gets _remote) ;;
  is_desktop <- on_session s (gets _desktop) ;;
  server_port <- on_session s (gets _port) ;;
  (if is_remote : bool then emit (EInfo (_REMOTE_INSTRUCTIONS server_port))
   else if default false is_desktop then emit (EInfo _APP_DESKTOP_MESSAGE)
   else if negb (bool_decide (_get_context env = _NONE)) && negb auto then
     emit (EInfo _APP_NOTEBOOK_MESSAGE)
   else if decide (_get_context env = _NONE) then
     emit (EInfo (_APP_WEB_MESSAGE port))
   else ret tt) ;;
  ret s.

End Lifecycle.

(** ** Vocabulary of the properties *)

(** The two calls of the first property: [session.dataset = d] and
    [session.view = v]. *)
Inductive Call : Type :=
  | SetDataset (d : option Dataset)
  | SetView (v : option DatasetView).

Definition run_call (env : Env) (c : Call) : M Session unit :=
  match c with
  | SetDataset d => dataset_set env d
  | SetView v => view_set env v
  end.

(** A caller issuing calls one after the other, each in the surroundings
    of its moment, and going on with the same object whatever a call
    answered. *)
Fixpoint run_calls (cs : list (Env * Call)) (s : Session) : Session :=
  match cs with
  | [] => s
  | (env, c) :: cs => run_calls cs (store (run_call env c s))
  end.

Definition selections_cleared (st : StateDescription) : Prop :=
  selected st = [] /\ selected_objects st = [] /\ filters st = ∅.

(** A view, when there is one, decides the dataset. *)
Definition single_source (st : StateDescription) : Prop :=
  match view st with
  | Some v => dataset st = Some (_dataset v)
  | None => True
  end.

Definition call_post (c : Call) (st : StateDescription) : Prop :=
  match c with
  | SetDataset d => view st = None /\ dataset st = d
  | SetView (Some v) => view st = Some v /\ dataset st = Some (_dataset v)
  | SetView None => view st = None
  end.

(** The mutators wrapped by the decorator, that is all of them but
    [close]. *)
Inductive Mutator : Type :=
  | MShow (height : option Z)
  | MDatasetSet (d : option Dataset)
  | MClearDataset
  | MViewSet (v : option DatasetView)
  | MClearView
  | MRefresh.

Definition run_mutator (env : Env) (m : Mutator) : M Session unit :=
  match m with
  | MShow h => show env h
  | MDatasetSet d => dataset_set env d
  | MClearDataset => clear_dataset env
  | MViewSet v => view_set env v
  | MClearView => clear_view env
  | MRefresh => refresh env
  end.

(** Every push of the trace comes right after a catalog refresh;
    [prev] tells whether the event just before was one. *)
Fixpoint refreshed_pushes (prev : bool) (t : list Event) : bool :=
  match t with
  | [] => true
  | EPush _ :: t => prev && refreshed_pushes false t
  | EListDatasets :: t => refreshed_pushes true t
  | _ :: t => refreshed_pushes false t
  end.

Fixpoint count_pushes (t : list Event) : nat :=
  match t with
  | [] => 0
  | EPush _ :: t => S (count_pushes t)
  | _ :: t => count_pushes t
  end.

Fixpoint count_displays (t : list Event) : nat :=
  match t with
  | [] => 0
  | EDisplay _ _ _ :: t => S (count_displays t)
  | _ :: t => count_displays t
  end.

(** The height rule in the words of the specification: a caller's height
    other than 800 is used as given; otherwise the configured height when
    it is not 800; otherwise 800. *)
Definition spec_height (caller configured : option Z) : option Z :=
  if decide (caller = Some 800) then
    if decide (configured = Some 800) then Some 800 else configured
  else caller.

(** [self.dataset._doc.reload()] under its guard, for a given state. *)
Definition doc_reload (st : StateDescription) : list Event :=
  match view st, dataset st with
  | Some v, _ => [EDocReload (_dataset v)]
  | None, Some d => [EDocReload d]
  | None, None => []
  end.

(** The three mutations of the ordering property. *)
Inductive Mutation : Type :=
  | MutDataset (d : option Dataset)
  | MutView (v : option DatasetView)
  | MutRefresh.

Definition mutate (env : Env) (m : Mutation) : M Session unit :=
  match m with
  | MutDataset d => dataset_set env d
  | MutView v => view_set env v
  | MutRefresh => refresh env
  end.

(** The field assignments of a mutation, and the reload it asks of the
    dataset. *)
Definition mutation_fields (m : Mutation) (st : StateDescription)
    : StateDescription :=
  match m with
  | MutDataset d =>
      mkState (datasets st) d None [] [] ∅ (close st)
  | MutView (Some v) =>
      mkState (datasets st) (Some (_dataset v)) (Some v) [] [] ∅ (close st)
  | MutView None =>
      mkState (datasets st) (dataset st) None [] [] ∅ (close st)
  | MutRefresh => st
  end.

Definition mutation_reloads (m : Mutation) : list Event :=
  match m with
  | MutDataset (Some d) => [EDatasetReload d]
  | MutView (Some v) => [EDatasetReload (_dataset v)]
  | _ => []
  end.

(** The ordering asked by the specification: whenever the viewer is
    rendered, a push has already happened. *)
Definition auto_show_after_push (t : list Event) : Prop :=
  forall pre ctx port height post,
    t = pre ++ EDisplay ctx port height :: post ->
    exists st, EPush st ∈ pre.

(** Subscribing, and unsubscribing, a list of objects in turn. *)
Fixpoint acquire_all (env : Env) (port : Z) (subs : list SessionId)
    : M World unit :=
  match subs with
  | [] => ret tt
  | self :: subs => acquire env port self ;; acquire_all env port subs
  end.

Fixpoint release_all (port : Z) (subs : list SessionId)
    : M World unit :=
  match subs with
  | [] => ret tt
  | self :: subs => release port self ;; release_all port subs
  end.

(** The two configuration errors of a notebook. *)
Definition remote_notebook_error : Exn :=
  ValueError "Remote sessions cannot be run from a notebook".

Definition desktop_notebook_error : Exn :=
  ValueError
    "Cannot open a Desktop App instance from a notebook. Use `session.show()` to open the App.".

(** The part of the world that [acquire] and [release] manage. *)
Definition registry (w : World)
    : gmap Z ServerService * gmap Z (gset positive) :=
  (_server_services w, _subscribed_sessions w).

(** A computation that leaves an observation [f] of the world as it
    finds it. *)
Definition keeps {A X} (f : World -> X) (m : M World A) : Prop :=
  forall w, f (store (m w)) = f w.

(** ** Fixtures: a script, a notebook, a dataset and a view of it *)

Definition script_env : Env :=
  mkEnv _NONE ["quickstart"] false false false true 0 (fun _ => "").

Definition notebook_env : Env :=
  mkEnv _IPYTHON ["quickstart"] false false false true 0 (fun _ => "").

Definition quickstart : Dataset := mkDataset "quickstart".

Definition quickstart_view : DatasetView := mkView quickstart ["Limit"].

(** A session as [Session(port=5151)] leaves it in a script. *)
Definition script_session : Session :=
  mkSession _NONE 5151 false false true (Some 800) empty_state
            (Some false) (Some 0%Q) None.

(** A notebook session showing [quickstart_view] with one sample selected
    and one filter set in the App. *)
Definition notebook_session : Session :=
  mkSession _IPYTHON 5151 false false true (Some 800)
            (mkState ["quickstart"] (Some quickstart) (Some quickstart_view)
                     ["5f8d254a27ad06815ab89ad4"] []
                     {["ground_truth" := "cat"]} false)
            (Some false) (Some 0%Q) None.

(** ** The remaining methods and the callers of the module *)

(** [open] and [close] beside the decorated mutators: every method a
    caller can invoke on a session without blocking. *)
Inductive Method : Type :=
  | MethMutator (m : Mutator)
  | MethOpen
  | MethClose.

Definition run_method (env : Env) (meth : Method) : M Session unit :=
  match meth with
  | MethMutator m => run_mutator env m
  | MethOpen => open env
  | MethClose => close_
  end.

(** The attributes of a session other than [state] and the warning
    switch. *)
Definition config (s : Session)
    : ExecContext * Z * bool * bool * option Z * option bool * option Q
      * option Z :=
  (_context s, _port s, _remote s, _auto s, _height s, _desktop s,
   _start_time s, _app_service s).

Definition with__disable_wait_warning (x : bool) (s : Session) : Session :=
  mkSession (_context s) (_port s) (_remote s) x (_auto s) (_height s)
            (state s) (_desktop s) (_start_time s) (_app_service s).

(** How a blocking call ([service.wait()], [time.sleep(1)]) ends: it
    returns, it is interrupted from the keyboard, or it fails. *)
Inductive Signal : Type :=
  | Finished
  | Interrupted
  | Failed (e : Exn).

Inductive WaitExn : Type :=
  | KeyboardInterrupt
  | OtherExn (e : Exn).

(** What [wait] has done once the blocking calls of a finite history
    have ended as the history says: returned, raised, or still
    blocked. *)
Inductive WaitResult : Type :=
  | WReturn
  | WRaise (e : WaitExn)
  | WPending.

(** [while True: time.sleep(1)] *)
Fixpoint sleep_loop (signals : list Signal) : WaitResult :=
  match signals with
  | [] => WPending
  | Finished :: signals => sleep_loop signals
  | Interrupted :: _ => WRaise KeyboardInterrupt
  | Failed e :: _ => WRaise (OtherExn e)
  end.

(** [Session.wait], for the object [self], along a history of its
    blocking calls.  The inner [except:] is bare, so it also takes a
    keyboard interrupt of [service.wait()]. *)
Definition wait (signals : list Signal) (self : SessionId) (w : World)
    : WaitResult * World :=
  match heap w !! self with
  | None => (WRaise (OtherExn (AttributeError "self")), w)
  | Some s =>
      let result :=
        match (if _remote s then Some true else negb <$> _desktop s) with
        | None => WRaise (OtherExn (AttributeError "_desktop"))
        | Some true =>
            match _server_services w !! _port s with
            | Some _ =>
                match signals with
                | [] => WPending
                | Finished :: _ => WReturn
                | _ :: signals => sleep_loop signals
                end
            | None => sleep_loop signals
            end
        | Some false =>
            match _app_service s with
            | Some _ =>
                match signals with
                | [] => WPending
                | Finished :: _ => WReturn
                | Interrupted :: _ => WRaise KeyboardInterrupt
                | Failed e :: _ => WRaise (OtherExn e)
                end
            | None => WRaise (OtherExn (AttributeError "_app_service"))
            end
        end in
      match result with
      | WRaise KeyboardInterrupt =>
          (result,
           with_heap (<[self := with__disable_wait_warning true s]>) w)
      | _ => (result, w)
      end
  end.

(** The arguments shared by [Session(..)] and [launch_app(..)]. *)
Record Args : Type := mkArgs {
  arg_dataset : option Dataset;
  arg_view : option DatasetView;
  arg_port : Z;
  arg_remote : bool;
  arg_desktop : option bool;
  arg_auto : bool;
  arg_height : option Z
}.

(** One step of a program using the module. *)
Inductive Op : Type :=
  | OpSession (a : Args)                        (* Session(..) *)
  | OpLaunch (a : Args)                         (* launch_app(..) *)
  | OpCloseApp                                  (* close_app() *)
  | OpDel (self : SessionId)                    (* self.__del__() *)
  | OpCall (self : SessionId) (meth : Method)   (* self.method(..) *)
  | OpWait (self : SessionId) (signals : list Signal). (* self.wait() *)

Definition run_op (env : Env) (o : Op) (w : World) : World :=
  match o with
  | OpSession a =>
      store (__init__ env (arg_dataset a) (arg_view a) (arg_port a)
               (arg_remote a) (arg_desktop a) (arg_auto a) (arg_height a) w)
  | OpLaunch a =>
      store (launch_app env (arg_dataset a) (arg_view a) (arg_port a)
               (arg_remote a) (arg_desktop a) (arg_auto a) (arg_height a) w)
  | OpCloseApp => store (close_app w)
  | OpDel self => store (__del__ env self w)
  | OpCall self meth => store (on_session self (run_method env meth) w)
  | OpWait self signals => snd (wait signals self w)
  end.

(** A program: its steps, each in the surroundings of its moment; the
    program goes on after a step that raised. *)
Fixpoint run_ops (ops : list (Env * Op)) (w : World) : World :=
  match ops with
  | [] => w
  | (env, o) :: ops => run_ops ops (run_op env o w)
  end.

(** The worlds a program can be in. *)
Definition reachable (w : World) : Prop :=
  exists ops, w = run_ops ops initial_world.

(** What holds of every such world (see [reachable_world_ok]): objects
    are older than the next identity and fully constructed up to line
    269; [_session] and the subscriber sets only hold live objects, each
    under its own port; a port has a server exactly when it has
    subscribers, and the server knows its port. *)
Definition world_ok (w : World) : Prop :=
  (forall id s, heap w !! id = Some s ->
     (id < next_id w)%positive
     /\ is_Some (_start_time s) /\ is_Some (_desktop s))
  /\ (forall id, _session w = Some id -> is_Some (heap w !! id))
  /\ (forall p id, id ∈ subscribers (_subscribed_sessions w) p ->
        exists s, heap w !! id = Some s /\ _port s = p)
  /\ (forall p, is_Some (_server_services w !! p)
                <-> subscribers (_subscribed_sessions w) p <> ∅)
  /\ (forall p service, _server_services w !! p = Some service ->
        service_port service = p).

(** Whether a mutator asks for the viewer to be rendered: [show] does,
    [clear_dataset] does not, the others do when [auto] is on. *)
Definition renders (m : Mutator) (auto : bool) : bool :=
  match m with
  | MShow _ => true
  | MClearDataset => false
  | _ => auto
  end.

(** A session created in a notebook. *)
Definition in_notebook (s : Session) : bool :=
  negb (bool_decide (_context s = _NONE)).

(** No notebook around at the moment of a call. *)
Definition no_notebook_now (env : Env) : bool :=
  bool_decide (_get_context env = _NONE).

(** The events that bring up a user interface outside notebooks. *)
Fixpoint ui_events (t : list Event) : list Event :=
  match t with
  | [] => []
  | EBrowserOpen u :: t => EBrowserOpen u :: ui_events t
  | EAppServiceNew p :: t => EAppServiceNew p :: ui_events t
  | EAppServiceStart p :: t => EAppServiceStart p :: ui_events t
  | _ :: t => ui_events t
  end.

Fixpoint stopped_ports (t : list Event) : list Z :=
  match t with
  | [] => []
  | EServerStop p :: t => p :: stopped_ports t
  | _ :: t => stopped_ports t
  end.

Definition desktop_package_error : Exn :=
  ValueError
    "You must install the 'fiftyone-desktop' package in order to launch a desktop App instance".

(** The value line 261-265 gives [desktop]. *)
Definition resolved_desktop (env : Env) (desktop : option bool) : bool :=
  match desktop with
  | Some b => b
  | None =>
      if decide (_get_context env = _NONE) then config_desktop_app env
      else false
  end.

(** The state a new session starts from: the view when one is given,
    else the dataset when one is given, else the client's empty state. *)
Definition loaded_state (env : Env) (dataset : option Dataset)
    (view : option DatasetView) : StateDescription :=
  match view, dataset with
  | Some v, _ =>
      mkState (list_datasets env) (Some (_dataset v)) (Some v) [] [] ∅ false
  | None, Some d => mkState (list_datasets env) (Some d) None [] [] ∅ false
  | None, None => empty_state
  end.

(** The outcome of the checks of lines 271-295, as a table. *)
Definition construction_error (env : Env) (remote : bool)
    (desktop : option bool) : option Exn :=
  if bool_decide (_get_context env = _NONE) then
    if negb remote && resolved_desktop env desktop
       && negb (desktop_importable env) && negb (DEV_INSTALL env)
    then Some desktop_package_error else None
  else if remote then Some remote_notebook_error
  else if resolved_desktop env desktop then Some desktop_notebook_error
  else None.

(** The fields a decorated mutator assigns, before the decorator
    refreshes the catalog. *)
Definition mutator_fields (m : Mutator) (st : StateDescription)
    : StateDescription :=
  match m with
  | MShow _ => st
  | MDatasetSet d => mutation_fields (MutDataset d) st
  | MClearDataset => with_dataset None st
  | MViewSet v => mutation_fields (MutView v) st
  | MClearView => with_view None st
  | MRefresh => st
  end.

(** The lines logged at level info. *)
Fixpoint infos (t : list Event) : list string :=
  match t with
  | [] => []
  | EInfo msg :: t => msg :: infos t
  | _ :: t => infos t
  end.

(** The message [launch_app] picks on lines 142-149. *)
Definition launch_message (env : Env) (a : Args) : list string :=
  if arg_remote a then [_REMOTE_INSTRUCTIONS (arg_port a)]
  else if resolved_desktop env (arg_desktop a) then [_APP_DESKTOP_MESSAGE]
  else if negb (bool_decide (_get_context env = _NONE))
          && negb (arg_auto a) then [_APP_NOTEBOOK_MESSAGE]
  else if bool_decide (_get_context env = _NONE) then
    [_APP_WEB_MESSAGE (arg_port a)]
  else [].

(** What the destructor relies on in a world: a subscriber of a port is
    a session of that port, a port has a server exactly when it has
    subscribers, and the server knows its port. *)
Definition registry_ok (w : World) : Prop :=
  (forall p id, id ∈ subscribers (_subscribed_sessions w) p ->
     exists s, heap w !! id = Some s /\ _port s = p)
  /\ (forall p, is_Some (_server_services w !! p)
                <-> subscribers (_subscribed_sessions w) p <> ∅)
  /\ (forall p service, _server_services w !! p = Some service ->
        service_port service = p).

Fixpoint pushed_states (t : list Event) : list StateDescription :=
  match t with
  | [] => []
  | EPush st :: t => st :: pushed_states t
  | _ :: t => pushed_states t
  end.

Fixpoint count_prints (t : list Event) : nat :=
  match t with
  | [] => 0
  | EPrint _ :: t => S (count_prints t)
  | _ :: t => count_prints t
  end.

(** ** Properties of the mutators *)

Ltac break_session s :=
  let st := fresh "st" in
  let ctx := fresh "ctx" in
  let auto := fresh "auto" in
  let d := fresh "d" in
  let v := fresh "v" in
  destruct s as [ctx ? ? ? auto ? st ? ? ?];
  destruct st as [? d v ? ? ? ?];
  destruct ctx, auto, d, v.

Lemma run_calls_app cs1 cs2 s :
  run_calls (cs1 ++ cs2) s = run_calls cs2 (run_calls cs1 s).
Proof.
  revert s. induction cs1 as [|[env c] cs1 IH]; intros s; simpl; auto.
Qed.

Lemma run_call_post env c s :
  let st := state (store (run_call env c s)) in
  call_post c st /\ selections_cleared st /\ single_source st.
Proof.
  destruct env as [ectx ? ? ? ? ? ? ?].
  break_session s; destruct c as [[?|]|[?|]]; destruct ectx.
  all: split; [|split; [split; [|split]|]].
  all: first [reflexivity | exact I | split; reflexivity].
Qed.

(** C1: after every call of a sequence of [dataset]/[view] assignments
    the selection, the selected objects and the filters are empty and a
    single source of truth remains: assigning the dataset (any value)
    leaves no view, assigning a view that is not [None] makes the dataset
    that view's dataset. *)
Theorem set_dataset_view_invalidate_selection
    (s : Session) (cs : list (Env * Call)) (env : Env) (c : Call) :
  let st := state (run_calls (cs ++ [(env, c)]) s) in
  call_post c st /\ selections_cleared st /\ single_source st.
Proof.
  rewrite run_calls_app. simpl. apply run_call_post.
Qed.

(** *** Heights *)

(** The branches of [show] on lines 356-359 compute the height of the
    specification's rule. *)
Lemma show_height_rule (height self_height : option Z) :
  (if ne_800 height then height
   else if ne_800 self_height then self_height else height)
  = spec_height height self_height.
Proof.
  unfold spec_height, ne_800.
  destruct height as [h|], self_height as [c|]; simpl;
    repeat case_decide; repeat case Z.eqb_spec; simpl; intros;
    simplify_eq; try reflexivity; try congruence.
Qed.

(** [self.show()] without argument ends up rendering at the configured
    height, 800 standing for a missing one. *)
Lemma auto_show_height (self_height : option Z) :
  default 800
    (if ne_800 (Some 800) then Some 800
     else if ne_800 self_height then self_height else Some 800)
  = default 800 self_height.
Proof.
  rewrite show_height_rule. unfold spec_height.
  destruct self_height as [c|]; repeat case_decide; simplify_eq;
    reflexivity.
Qed.

(** *** The order of the steps of a mutation *)

(** In a notebook with [auto], assigning the dataset renders the viewer
    before anything is pushed. *)
Lemma dataset_set_renders_before_push :
  trace (dataset_set notebook_env (Some quickstart) notebook_session) =
    [EDatasetReload quickstart; EDocReload quickstart; EListDatasets;
     EDisplay _IPYTHON 5151 800;
     EListDatasets;
     EPush (mkState ["quickstart"] (Some quickstart) None [] [] ∅ false);
     EListDatasets;
     EPush (mkState ["quickstart"] (Some quickstart) None [] [] ∅ false)]
  /\ ~ auto_show_after_push
        (trace (dataset_set notebook_env (Some quickstart) notebook_session)).
Proof.
  split; [reflexivity|].
  intros H.
  destruct (H [EDatasetReload quickstart; EDocReload quickstart;
               EListDatasets] _IPYTHON 5151 800
              [EListDatasets;
               EPush (mkState ["quickstart"] (Some quickstart) None [] []
                              ∅ false);
               EListDatasets;
               EPush (mkState ["quickstart"] (Some quickstart) None [] []
                              ∅ false)] eq_refl) as [st Hin].
  repeat (apply elem_of_cons in Hin as [Hin|Hin]; [discriminate Hin|]).
  by apply elem_of_nil in Hin.
Qed.

(** C2, amended: a mutation ([dataset] or [view] assignment, [refresh])
    first assigns its fields, then -- in a notebook with [auto] -- runs
    the auto-show, which renders and then refreshes the catalog and
    pushes on its own, and only then refreshes the catalog and pushes
    for the mutation itself.  The last push follows the rendering, and
    every push comes right after a catalog refresh. *)
Theorem mutation_then_auto_show_then_push
    (env : Env) (s : Session) (m : Mutation) :
  _get_context env = _context s ->
  let st1 := mutation_fields m (state s) in
  let st2 := with_datasets (list_datasets env) st1 in
  mutate env m s =
    (Ret tt, with_state (fun _ => st2) s,
     mutation_reloads m ++
     (if negb (bool_decide (_context s = _NONE)) && _auto s
      then doc_reload st1 ++
           [EListDatasets;
            EDisplay (_context s) (_port s) (default 800 (_height s));
            EListDatasets; EPush st2]
      else []) ++
     [EListDatasets; EPush st2]).
Proof.
  intros Hctx st1 st2. rewrite <- (auto_show_height (_height s)).
  subst st1 st2. revert Hctx.
  destruct env as [ectx ? ? ? ? ? ? ?].
  break_session s; destruct m as [[?|]|[?|]|]; simpl; intros ->.
  all: reflexivity.
Qed.

Lemma mutation_then_auto_show_then_push_witness :
  mutate notebook_env (MutView None) notebook_session =
    (Ret tt,
     with_state
       (fun _ => mkState ["quickstart"] (Some quickstart) None [] [] ∅ false)
       notebook_session,
     [EDocReload quickstart; EListDatasets; EDisplay _IPYTHON 5151 800;
      EListDatasets;
      EPush (mkState ["quickstart"] (Some quickstart) None [] [] ∅ false);
      EListDatasets;
      EPush (mkState ["quickstart"] (Some quickstart) None [] [] ∅ false)]).
Proof.
  apply (mutation_then_auto_show_then_push
           notebook_env notebook_session (MutView None)).
  reflexivity.
Defined.

(** *** [show] *)

(** Outside a notebook [show] warns and returns, and the decorator on it
    then refreshes the catalog and pushes all the same. *)
Lemma show_outside_notebook (env : Env) (height : option Z) (s : Session) :
  _context s = _NONE ->
  show env height s =
    (Ret tt, with_state (with_datasets (list_datasets env)) s,
     [EWarn "`Session.show()` is a no-op outside of notebooks";
      EListDatasets;
      EPush (with_datasets (list_datasets env) (state s))]).
Proof.
  destruct s; simpl; intros ->. reflexivity.
Qed.

(** C4: at a script session, [show(800)] returns and warns, but the
    trace does not stop at the warning: the catalog is refreshed (here
    from empty to one name) and the state is pushed once. *)
Theorem show_in_script_pushes_state :
  show script_env (Some 800) script_session =
    (Ret tt,
     with_state (with_datasets ["quickstart"]) script_session,
     [EWarn "`Session.show()` is a no-op outside of notebooks";
      EListDatasets;
      EPush (mkState ["quickstart"] None None [] [] ∅ false)])
  /\ count_pushes (trace (show script_env (Some 800) script_session)) = 1%nat.
Proof.
  split; reflexivity.
Qed.

Lemma show_in_notebook (env : Env) (height : option Z) (s : Session) :
  _context s <> _NONE ->
  _get_context env = _context s ->
  show env height s =
    (Ret tt, with_state (with_datasets (list_datasets env)) s,
     doc_reload (state s) ++
     [EListDatasets;
      EDisplay (_context s) (_port s)
        (default 800
           (if ne_800 height then height
            else if ne_800 (_height s) then _height s else height));
      EListDatasets;
      EPush (with_datasets (list_datasets env) (state s))]).
Proof.
  destruct env as [ectx ? ? ? ? ? ? ?].
  break_session s; simpl; intros Hnb ->; try (by destruct Hnb).
  all: reflexivity.
Qed.

(** C9: in a notebook, [show(height)] renders once, at the height the
    specification's rule gives: the caller's when it is not 800,
    otherwise the configured one when that is not 800, otherwise 800
    (a height of [None] is handed on as it is and rendered as 800 by
    [_display]). *)
Theorem show_height_precedence
    (env : Env) (s : Session) (height : option Z) :
  _context s <> _NONE ->
  _get_context env = _context s ->
  show env height s =
    (Ret tt, with_state (with_datasets (list_datasets env)) s,
     doc_reload (state s) ++
     [EListDatasets;
      EDisplay (_context s) (_port s)
        (default 800 (spec_height height (_height s)));
      EListDatasets;
      EPush (with_datasets (list_datasets env) (state s))]).
Proof.
  intros Hnb Hctx. rewrite <- show_height_rule.
  by apply show_in_notebook.
Qed.

Lemma show_height_precedence_witness :
  trace (show notebook_env (Some 800)
           (mkSession _IPYTHON 5151 false false true (Some 600) empty_state
                      (Some false) (Some 0%Q) None))
  = [EListDatasets; EDisplay _IPYTHON 5151 600; EListDatasets;
     EPush (mkState ["quickstart"] None None [] [] ∅ false)].
Proof.
  rewrite (show_height_precedence notebook_env
             (mkSession _IPYTHON 5151 false false true (Some 600)
                        empty_state (Some false) (Some 0%Q) None)
             (Some 800)).
  - reflexivity.
  - simpl. discriminate.
  - reflexivity.
Defined.

(** *** [clear_dataset] and [clear_view] *)

(** C7: at a notebook session with a view, a selected sample and a
    filter, [clear_dataset] only drops the dataset: the selection and the
    filter stay, the view stays without its dataset, and nothing is
    rendered; [clear_view] drops the view and renders, but keeps the
    selection and the filter too.  Assigning [None] to [dataset], the
    sibling path, clears all of it. *)
Theorem clear_dataset_keeps_selection :
  clear_dataset notebook_env notebook_session =
    (Ret tt,
     with_state (with_dataset None) notebook_session,
     [EListDatasets;
      EPush (mkState ["quickstart"] None (Some quickstart_view)
                     ["5f8d254a27ad06815ab89ad4"] []
                     {["ground_truth" := "cat"]} false)])
  /\ ~ selections_cleared
        (state (store (clear_dataset notebook_env notebook_session)))
  /\ ~ single_source
        (state (store (clear_dataset notebook_env notebook_session)))
  /\ count_displays (trace (clear_dataset notebook_env notebook_session))
     = 0%nat
  /\ ~ selections_cleared
        (state (store (clear_view notebook_env notebook_session)))
  /\ selections_cleared
       (state (store (dataset_set notebook_env None notebook_session)))
  /\ count_displays
       (trace (dataset_set notebook_env None notebook_session)) = 1%nat.
Proof.
  split; [reflexivity|].
  split; [intros [H _]; discriminate H|].
  split; [intros H; discriminate H|].
  split; [reflexivity|].
  split; [intros [H _]; discriminate H|].
  split; [|reflexivity].
  repeat split; reflexivity.
Qed.

(** *** [close] against the decorated mutators *)

Lemma run_mutator_refreshes_before_push env m s :
  let r := run_mutator env m s in
  refreshed_pushes false (trace r) = true /\
  match outcome r with
  | Ret _ => last (trace r) = Some (EPush (state (store r)))
  | Raise _ => True
  end.
Proof.
  destruct env as [ectx ? ? ? ? ? ? ?].
  break_session s; destruct m as [?|[?|]| |[?|]| |]; destruct ectx.
  all: split; vm_compute; first [reflexivity | exact I].
Qed.

Lemma run_mutator_stores_catalog env m s :
  let r := run_mutator env m s in
  datasets (state (store r)) = list_datasets env
  /\ Forall (fun st => datasets st = list_datasets env)
            (pushed_states (trace r)).
Proof.
  destruct env as [ectx ? ? ? ? ? ? ?].
  break_session s; destruct m as [?|[?|]| |[?|]| |]; destruct ectx.
  all: split; [reflexivity|].
  all: vm_compute; repeat constructor.
Qed.

Lemma close_keeps_catalog s :
  datasets (state (store (close_ s))) = datasets (state s)
  /\ Forall (fun st => datasets st = datasets (state s))
            (pushed_states (trace (close_ s))).
Proof.
  destruct s as [? ? [|] ? ? ? [? ? ? ? ? ? ?] ? ? ?]; split;
    try reflexivity; vm_compute; repeat constructor.
Qed.

(** C8: [close] does nothing at all on a remote session; otherwise it
    sets the close flag, leaves every other field as it was -- the
    catalog [datasets] included, which it neither lists nor stores --
    and pushes that state.  Every other mutator refreshes the catalog
    right before each of its pushes: it lists the datasets, stores the
    list in [state.datasets], and every state it pushes carries that
    list; it ends with such a push when it returns. *)
Theorem close_pushes_without_catalog_refresh
    (env : Env) (s : Session) (m : Mutator) :
  close_ s =
    (if _remote s then (Ret tt, s, [])
     else (Ret tt, with_state (with_close true) s,
           [EPush (with_close true (state s))]))
  /\ refreshed_pushes false (trace (close_ s)) = _remote s
  /\ datasets (state (store (close_ s))) = datasets (state s)
  /\ Forall (fun st => datasets st = datasets (state s))
            (pushed_states (trace (close_ s)))
  /\ refreshed_pushes false (trace (run_mutator env m s)) = true
  /\ datasets (state (store (run_mutator env m s))) = list_datasets env
  /\ Forall (fun st => datasets st = list_datasets env)
            (pushed_states (trace (run_mutator env m s)))
  /\ match outcome (run_mutator env m s) with
     | Ret _ =>
         last (trace (run_mutator env m s))
         = Some (EPush (state (store (run_mutator env m s))))
     | Raise _ => True
     end.
Proof.
  destruct (close_keeps_catalog s) as [Hc1 Hc2].
  destruct (run_mutator_stores_catalog env m s) as [Hm1 Hm2].
  destruct (run_mutator_refreshes_before_push env m s) as [Hr1 Hr2].
  split; [|split]; [| |auto 10].
  - destruct s as [? ? [|] ? ? ? ? ? ? ?]; reflexivity.
  - destruct s as [? ? [|] ? ? ? ? ? ? ?]; reflexivity.
Qed.

(** ** The registry of server processes *)

Lemma subscribers_insert (m : gmap Z (gset positive)) port X :
  subscribers (<[port := X]> m) port = X.
Proof. unfold subscribers. by rewrite lookup_insert_eq. Qed.

Lemma acquire_eq env port self w :
  acquire env port self w =
    (Ret tt,
     mkWorld (heap w) (next_id w) (_session w)
       (match _server_services w !! port with
        | None =>
            <[port := mkServerService port (config_do_not_track env)]>
              (_server_services w)
        | Some _ => _server_services w
        end)
       (<[port := {[self]} ∪ subscribers (_subscribed_sessions w) port]>
          (_subscribed_sessions w)),
     match _server_services w !! port with
     | None => [EServerStart port (config_do_not_track env)]
     | Some _ => []
     end).
Proof.
  unfold acquire, bind, gets, modify, emit, ret; simpl.
  destruct w as [hp nx cur services subscribed].
  unfold with__subscribed_sessions, with__server_services; simpl.
  destruct (services !! port); reflexivity.
Qed.

Lemma release_eq port self w :
  release port self w =
    let subscribed :=
      <[port := subscribers (_subscribed_sessions w) port ∖ {[self]}]>
        (_subscribed_sessions w) in
    match decide (size (subscribers (_subscribed_sessions w) port
                        ∖ {[self]}) = 0%nat),
          _server_services w !! port with
    | left _, Some service =>
        (Ret tt,
         mkWorld (heap w) (next_id w) (_session w)
                 (delete port (_server_services w)) subscribed,
         [EServerStop (service_port service)])
    | _, _ =>
        (Ret tt,
         mkWorld (heap w) (next_id w) (_session w) (_server_services w)
                 subscribed,
         [])
    end.
Proof.
  unfold release, bind, gets, modify, emit, ret; simpl.
  destruct w as [hp nx cur services subscribed].
  unfold with__subscribed_sessions, with__server_services; simpl.
  rewrite subscribers_insert.
  destruct (decide _); [simpl|reflexivity].
  destruct (services !! port); reflexivity.
Qed.

Lemma acquire_all_spec env port subs w :
  let r := acquire_all env port subs w in
  subscribers (_subscribed_sessions (store r)) port
    = list_to_set subs ∪ subscribers (_subscribed_sessions w) port
  /\ (forall service, _server_services w !! port = Some service ->
        _server_services (store r) !! port = Some service /\ trace r = [])
  /\ (_server_services w !! port = None -> subs <> [] ->
        _server_services (store r) !! port
          = Some (mkServerService port (config_do_not_track env))
        /\ trace r = [EServerStart port (config_do_not_track env)]).
Proof.
  revert w. induction subs as [|self subs IH]; intros w.
  - simpl. split; [set_solver|]. split; [auto|]. intros _ Hne. done.
  - simpl acquire_all. unfold bind. rewrite acquire_eq.
    match goal with
    | |- context [acquire_all env port subs ?w1] =>
        specialize (IH w1); destruct (acquire_all env port subs w1)
          as [[o w2] t2]
    end.
    unfold store, trace in *. simpl in *. rewrite subscribers_insert in IH.
    destruct IH as (Hsub & Hsome & _).
    split; [rewrite Hsub; set_solver|].
    split.
    + intros service Hs. rewrite Hs in Hsome |- *.
      destruct (Hsome service Hs) as [-> ->]. auto.
    + intros Hs _. rewrite Hs in Hsome |- *.
      destruct (Hsome _ (lookup_insert_eq _ _ _)) as [-> ->]. auto.
Qed.

Lemma release_all_spec port subs w stay service :
  stay ∈ subscribers (_subscribed_sessions w) port ->
  stay ∉ subs ->
  _server_services w !! port = Some service ->
  let r := release_all port subs w in
  subscribers (_subscribed_sessions (store r)) port
    = subscribers (_subscribed_sessions w) port ∖ list_to_set subs
  /\ _server_services (store r) !! port = Some service
  /\ trace r = [].
Proof.
  revert w. induction subs as [|self subs IH]; intros w Hin Hnot Hs.
  - simpl. split; [set_solver|]. auto.
  - simpl release_all. unfold bind. rewrite release_eq.
    apply not_elem_of_cons in Hnot as [Hne Hnot].
    destruct (decide _) as [Hsz|Hsz].
    { apply size_empty_inv in Hsz. set_solver. }
    cbv zeta. cbv iota beta.
    match goal with
    | |- context [release_all port subs ?w1] =>
        specialize (IH w1); destruct (release_all port subs w1)
          as [[o w2] t2]
    end.
    unfold store, trace in *. simpl in *. rewrite subscribers_insert in IH.
    destruct IH as (Hsub & Hsome & ->); [set_solver|done|done|].
    split; [rewrite Hsub; set_solver|]. auto.
Qed.

(** C6: when [N] distinct sessions subscribe to a port that has no
    server yet, one server is started, by the first of them; when all of
    them but one unsubscribe, in any order, the server entry stays and
    nothing is stopped; when the last one unsubscribes the entry is
    removed and the server stopped. *)
Theorem one_server_per_port
    (env : Env) (port : Z) (w : World)
    (acq rel : list SessionId) (last : SessionId) :
  _server_services w !! port = None ->
  subscribers (_subscribed_sessions w) port = ∅ ->
  NoDup acq ->
  acq ≡ₚ rel ++ [last] ->
  let r1 := acquire_all env port acq w in
  let r2 := release_all port rel (store r1) in
  let r3 := release port last (store r2) in
  trace r1 = [EServerStart port (config_do_not_track env)]
  /\ is_Some (_server_services (store r1) !! port)
  /\ size (subscribers (_subscribed_sessions (store r1)) port) = length acq
  /\ trace r2 = []
  /\ is_Some (_server_services (store r2) !! port)
  /\ trace r3 = [EServerStop port]
  /\ _server_services (store r3) !! port = None.
Proof.
  intros Hnone Hempty Hnd Hperm r1 r2 r3.
  assert (Hne : acq <> []).
  { intros ->. apply Permutation_nil_l in Hperm. by destruct rel. }
  destruct (acquire_all_spec env port acq w) as (Hsub1 & _ & Hstart).
  destruct (Hstart Hnone Hne) as [Hsvc1 Ht1]. fold r1 in Hsub1, Hsvc1, Ht1.
  rewrite Hempty, (right_id_L ∅ (∪)) in Hsub1.
  assert (Hnd' : NoDup (rel ++ [last])) by (by rewrite <- Hperm).
  apply NoDup_app in Hnd' as (_ & Hdisj & _).
  assert (Hlast : last ∉ rel).
  { intros Hin. apply (Hdisj _ Hin). by left. }
  assert (Hmember : last ∈ subscribers (_subscribed_sessions (store r1)) port).
  { rewrite Hsub1, elem_of_list_to_set, Hperm. set_solver. }
  destruct (release_all_spec port rel (store r1) last _ Hmember Hlast Hsvc1)
    as (Hsub2 & Hsvc2 & Ht2).
  fold r2 in Hsub2, Hsvc2, Ht2.
  assert (Hfinal : subscribers (_subscribed_sessions (store r2)) port
                   ∖ {[last]} = ∅).
  { rewrite Hsub2, Hsub1. apply set_eq. intros x.
    rewrite !elem_of_difference, !elem_of_list_to_set, Hperm.
    set_solver. }
  repeat split; eauto.
  - rewrite Hsub1. by apply size_list_to_set.
  - subst r3. rewrite release_eq, Hsvc2, Hfinal.
    destruct (decide _) as [_|Hsz]; [reflexivity|].
    by destruct Hsz.
  - subst r3. rewrite release_eq, Hsvc2, Hfinal.
    destruct (decide _) as [_|Hsz]; [simpl; apply lookup_delete_eq|].
    by destruct Hsz.
Qed.

Lemma one_server_per_port_witness :
  let r1 :=
    acquire_all script_env 5151 [1; 2; 3]%positive initial_world in
  let r2 := release_all 5151 [2; 1]%positive (store r1) in
  let r3 := release 5151 3%positive (store r2) in
  trace r1 = [EServerStart 5151 false]
  /\ is_Some (_server_services (store r1) !! 5151)
  /\ size (subscribers (_subscribed_sessions (store r1)) 5151) = 3%nat
  /\ trace r2 = []
  /\ is_Some (_server_services (store r2) !! 5151)
  /\ trace r3 = [EServerStop 5151]
  /\ _server_services (store r3) !! 5151 = None.
Proof.
  apply (one_server_per_port script_env 5151 initial_world
           [1; 2; 3]%positive [2; 1]%positive 3%positive).
  - reflexivity.
  - reflexivity.
  - apply (bool_decide_unpack _). vm_compute. reflexivity.
  - simpl. apply perm_swap.
Defined.

(** ** Construction *)

Lemma __init___eq env dataset view port remote desktop auto height w :
  __init__ env dataset view port remote desktop auto height w =
    let self := next_id w in
    let r :=
      __init__self env dataset view desktop
        (blank_session env port remote auto height) in
    let ra := acquire env port self w in
    (match outcome r with
     | Ret _ => Ret self
     | Raise e => Raise e
     end,
     mkWorld (<[self := store r]> (heap w)) (Pos.succ self) (_session w)
             (_server_services (store ra)) (_subscribed_sessions (store ra)),
     trace ra ++ trace r).
Proof.
  unfold __init__, new_session, bind, ret.
  rewrite !acquire_eq. cbv zeta. unfold store, trace, outcome. simpl.
  unfold on_session, with_heap. simpl.
  rewrite lookup_insert_eq.
  destruct (__init__self _ _ _ _ _) as [[[[]|e] s1] t1]; simpl;
    rewrite insert_insert_eq, ?app_nil_r; reflexivity.
Qed.

Lemma __init__self_remote_notebook env dataset view port desktop auto height :
  _get_context env <> _NONE ->
  outcome (__init__self env dataset view desktop
             (blank_session env port true auto height))
  = Raise remote_notebook_error.
Proof.
  destruct env as [ectx ? ? ? ? ? ? ?]; simpl; intros Hnb.
  destruct ectx; [by destruct Hnb| |];
    destruct dataset, view, desktop as [[|]|], auto; reflexivity.
Qed.

Lemma __init__self_desktop_omitted env dataset view port remote auto height :
  _get_context env <> _NONE ->
  let r := __init__self env dataset view None
             (blank_session env port remote auto height) in
  _desktop (store r) = Some false
  /\ outcome r = (if remote then Raise remote_notebook_error else Ret tt).
Proof.
  destruct env as [ectx ? ? ? ? ? ? ?]; simpl; intros Hnb.
  destruct ectx; [by destruct Hnb| |];
    destruct dataset, view, remote, auto; split; reflexivity.
Qed.

Lemma __init__self_desktop_error env dataset view port remote desktop auto
    height :
  outcome (__init__self env dataset view desktop
             (blank_session env port remote auto height))
  = Raise desktop_notebook_error ->
  desktop = Some true.
Proof.
  destruct desktop as [[|]|]; [reflexivity| |];
    destruct env as [ectx ? cfg ? dev imp ? ?];
    destruct ectx, cfg, dev, imp, dataset, view, remote, auto;
    intros H; vm_compute in H; discriminate H.
Qed.

(** A remote session asked for in a notebook: the constructor raises,
    but by then the port has its server and the object is subscribed. *)
Lemma remote_in_notebook_acquires_first :
  let r := __init__ notebook_env None None 5151 true None true (Some 800)
             initial_world in
  outcome r = Raise remote_notebook_error
  /\ trace r = [EServerStart 5151 false; EClientInit 5151]
  /\ ~ (_server_services (store r) !! 5151 = None
        /\ 1%positive ∉ subscribers (_subscribed_sessions (store r)) 5151).
Proof.
  split; [reflexivity|]. split; [reflexivity|].
  intros [H _]. vm_compute in H. discriminate H.
Qed.

(** C3, amended: constructing a session with [remote=True] in a notebook
    context fails with the configuration error, and it fails after lines
    246-253 have run: the port has a server entry (started by this very
    call when there was none) and the new object is in the port's
    subscriber set. *)
Theorem remote_in_notebook_fails_after_acquire
    (env : Env) (w : World) (dataset : option Dataset)
    (view : option DatasetView) (port : Z) (desktop : option bool)
    (auto : bool) (height : option Z) :
  _get_context env <> _NONE ->
  let r := __init__ env dataset view port true desktop auto height w in
  outcome r = Raise remote_notebook_error
  /\ is_Some (_server_services (store r) !! port)
  /\ next_id w ∈ subscribers (_subscribed_sessions (store r)) port
  /\ (_server_services w !! port = None ->
      EServerStart port (config_do_not_track env) ∈ trace r).
Proof.
  intros Hnb r. subst r. rewrite __init___eq. cbv zeta.
  pose proof (__init__self_remote_notebook env dataset view port desktop
                auto height Hnb) as Hraise.
  rewrite acquire_eq. unfold outcome, store, trace in *. cbn [fst snd].
  rewrite Hraise. cbn [_server_services _subscribed_sessions].
  rewrite subscribers_insert.
  split; [reflexivity|]. split; [|split].
  - destruct (_server_services w !! port) eqn:Hs.
    + rewrite Hs. eauto.
    + rewrite lookup_insert_eq. eauto.
  - set_solver.
  - intros ->. apply elem_of_app. left. by left.
Qed.

Lemma remote_in_notebook_fails_after_acquire_witness :
  let r := __init__ notebook_env (Some quickstart) None 5151 true None true
             (Some 800) initial_world in
  outcome r = Raise remote_notebook_error
  /\ is_Some (_server_services (store r) !! 5151)
  /\ next_id initial_world
       ∈ subscribers (_subscribed_sessions (store r)) 5151
  /\ (_server_services initial_world !! 5151 = None ->
      EServerStart 5151 (config_do_not_track notebook_env) ∈ trace r).
Proof.
  apply (remote_in_notebook_fails_after_acquire notebook_env initial_world
           (Some quickstart) None 5151 None true (Some 800)).
  simpl. discriminate.
Defined.

Lemma __init___desktop_error env dataset view port remote desktop auto
    height w :
  outcome (__init__ env dataset view port remote desktop auto height w)
  = Raise desktop_notebook_error ->
  desktop = Some true.
Proof.
  rewrite __init___eq. cbv zeta. unfold outcome at 1. cbn [fst snd].
  intros H.
  apply (__init__self_desktop_error env dataset view port remote desktop
           auto height).
  destruct (outcome (__init__self _ _ _ _ _)); [discriminate H|].
  by injection H as ->.
Qed.

(** C10: with [desktop] left out in a notebook context the constructor
    stores [False] for it and does not raise the desktop-in-notebook
    error: a session that is not remote is constructed (a remote one is
    refused for being remote).  Whatever the arguments, that error
    implies that [desktop=True] was passed. *)
Theorem desktop_omitted_in_notebook
    (env : Env) (w : World) (dataset : option Dataset)
    (view : option DatasetView) (port : Z) (remote auto : bool)
    (height : option Z) :
  _get_context env <> _NONE ->
  let r := __init__ env dataset view port remote None auto height w in
  (_desktop <$> heap (store r) !! next_id w) = Some (Some false)
  /\ outcome r
     = (if remote then Raise remote_notebook_error else Ret (next_id w))
  /\ (forall desktop w',
        outcome (__init__ env dataset view port remote desktop auto height w')
        = Raise desktop_notebook_error ->
        desktop = Some true).
Proof.
  intros Hnb r. subst r. rewrite __init___eq. cbv zeta.
  destruct (__init__self_desktop_omitted env dataset view port remote auto
              height Hnb) as [Hdesk Hout].
  unfold outcome, store, trace in *. cbn [fst snd heap].
  split; [|split].
  - rewrite lookup_insert_eq. simpl. by rewrite Hdesk.
  - rewrite Hout. by destruct remote.
  - intros desktop w'. apply __init___desktop_error.
Qed.

Lemma desktop_omitted_in_notebook_witness :
  let r := __init__ notebook_env (Some quickstart) None 5151 false None true
             (Some 800) initial_world in
  (_desktop <$> heap (store r) !! next_id initial_world) = Some (Some false)
  /\ outcome r = Ret (next_id initial_world)
  /\ (forall desktop w',
        outcome (__init__ notebook_env (Some quickstart) None 5151 false
                   desktop true (Some 800) w')
        = Raise desktop_notebook_error ->
        desktop = Some true).
Proof.
  apply (desktop_omitted_in_notebook notebook_env initial_world
           (Some quickstart) None 5151 false true (Some 800)).
  simpl. discriminate.
Defined.

(** With [desktop=True] the same call is refused. *)
Lemma desktop_true_in_notebook :
  outcome (__init__ notebook_env (Some quickstart) None 5151 false
             (Some true) true (Some 800) initial_world)
  = Raise desktop_notebook_error.
Proof. reflexivity. Qed.

(** ** [launch_app] and the previous session *)

Section Frame.

Context {X : Type} (f : World -> X).
Hypothesis f_heap : forall g w, f (with_heap g w) = f w.
Hypothesis f_session : forall x w, f (with__session x w) = f w.

Lemma keeps_bind {A B} (m : M World A) (k : A -> M World B) :
  keeps f m -> (forall a, keeps f (k a)) -> keeps f (bind m k).
Proof.
  intros Hm Hk w. unfold bind. specialize (Hm w).
  destruct (m w) as [[[a|e] w1] t1]; [|exact Hm].
  specialize (Hk a w1). destruct (k a w1) as [[o w2] t2].
  unfold store in *. simpl in *. congruence.
Qed.

Lemma keeps_on_session {A} self (m : M Session A) :
  keeps f (on_session self m).
Proof.
  intros w. unfold on_session.
  destruct (heap w !! self) as [s|]; [|reflexivity].
  destruct (m s) as [[o s1] t]. apply f_heap.
Qed.

Lemma keeps_emit e : keeps f (emit e).
Proof. intros w. reflexivity. Qed.

Lemma keeps_ret {A} (a : A) : keeps f (ret a).
Proof. intros w. reflexivity. Qed.

Lemma keeps_gets {A} (g : World -> A) : keeps f (gets g).
Proof. intros w. reflexivity. Qed.

Lemma keeps_set_session x : keeps f (modify (with__session x)).
Proof. intros w. apply f_session. Qed.

Lemma close_app_keeps : keeps f close_app.
Proof.
  unfold close_app. apply keeps_bind; [apply keeps_gets|].
  intros [s|]; [|apply keeps_ret].
  apply keeps_bind; [apply keeps_on_session|].
  intros _. apply keeps_set_session.
Qed.

(** What follows the constructor in [launch_app]. *)
Lemma launch_app_tail_keeps env port (auto : bool) s :
  keeps f
    (modify (with__session (Some s)) ;;
     is_remote <- on_session s (gets _remote) ;;
     is_desktop <- on_session s (gets _desktop) ;;
     server_port <- on_session s (gets _port) ;;
     (if is_remote : bool then
        emit (EInfo (_REMOTE_INSTRUCTIONS server_port))
      else if default false is_desktop then
        emit (EInfo _APP_DESKTOP_MESSAGE)
      else if negb (bool_decide (_get_context env = _NONE)) && negb auto then
        emit (EInfo _APP_NOTEBOOK_MESSAGE)
      else if decide (_get_context env = _NONE) then
        emit (EInfo (_APP_WEB_MESSAGE port))
      else ret tt) ;;
     ret s).
Proof.
  repeat first
    [ apply keeps_bind; [|intros ?]
    | apply keeps_on_session
    | apply keeps_set_session
    | apply keeps_emit
    | apply keeps_ret
    | match goal with
      | |- keeps f (if ?b then _ else _) => destruct b
      end ].
Qed.

End Frame.

Lemma store_bind {S A B} (m : M S A) (k : A -> M S B) (s : S) :
  store (bind m k s) =
    match m s with
    | (Ret a, s1, _) => store (k a s1)
    | (Raise _, s1, _) => s1
    end.
Proof.
  unfold bind. destruct (m s) as [[[a|e] s1] t1]; [|reflexivity].
  destruct (k a s1) as [[o s2] t2]. reflexivity.
Qed.

Lemma registry_with_heap g w : registry (with_heap g w) = registry w.
Proof. reflexivity. Qed.

Lemma registry_with__session x w :
  registry (with__session x w) = registry w.
Proof. reflexivity. Qed.

(** [launch_app] changes the registry exactly as subscribing the new
    object does: the previous session is told to close, and nothing of it
    is released. *)
Lemma launch_app_registry env dataset view port remote desktop auto height w :
  outcome (close_app w) = Ret tt ->
  registry (store (launch_app env dataset view port remote desktop auto
                     height w))
  = registry (store (acquire env port (next_id w) w)).
Proof.
  intros Hclose. unfold launch_app.
  pose proof (close_app_keeps registry registry_with_heap
                registry_with__session w) as Hreg.
  pose proof (close_app_keeps next_id (fun _ _ => eq_refl)
                (fun _ _ => eq_refl) w) as Hid.
  rewrite store_bind.
  destruct (close_app w) as [[[[]|e] w1] t1]; [|discriminate Hclose].
  unfold store in Hreg, Hid. simpl in Hreg, Hid.
  rewrite store_bind, __init___eq. cbv zeta.
  rewrite !acquire_eq. unfold store at 2 3 4 5, trace. simpl.
  unfold registry in Hreg. injection Hreg as Hsrv Hsub.
  rewrite Hsrv, Hsub, Hid.
  destruct (outcome (__init__self _ _ _ _ _)); [|reflexivity].
  etransitivity;
    [apply (launch_app_tail_keeps registry registry_with_heap
              registry_with__session env port auto)|].
  reflexivity.
Qed.

(** C5: launching twice on port 7000.  The second [launch_app] closes the
    first session's App (one push of the close flag) and subscribes the
    new object; the first one is still subscribed, the port counts two
    subscribers, and no server was stopped. *)
Theorem second_launch_leaves_two_subscribers :
  let r1 := launch_app script_env None None 7000 false None true (Some 800)
              initial_world in
  let r2 := launch_app script_env None None 7000 false None true (Some 800)
              (store r1) in
  outcome r1 = Ret 1%positive
  /\ outcome r2 = Ret 2%positive
  /\ _session (store r2) = Some 2%positive
  /\ size (subscribers (_subscribed_sessions (store r2)) 7000) = 2%nat
  /\ bool_decide
       (1%positive ∈ subscribers (_subscribed_sessions (store r2)) 7000)
     = true
  /\ trace r2 =
       [EPush (with_close true empty_state);
        EClientInit 7000;
        EBrowserOpen "http://localhost:7000";
        EInfo "App launched. Point your web browser to http://localhost:7000"].
Proof.
  vm_compute. repeat split; reflexivity.
Qed.

(** ** The constructor and the destructor against the registry *)

Lemma __init___registry env dataset view port remote desktop auto height w :
  registry (store (__init__ env dataset view port remote desktop auto
                     height w))
  = registry (store (acquire env port (next_id w) w)).
Proof. rewrite __init___eq. reflexivity. Qed.

Lemma on_session_gets {A} (g : Session -> A) self s w :
  heap w !! self = Some s ->
  on_session self (gets g) w = (Ret (g s), w, []).
Proof.
  intros Hs. unfold on_session, gets. rewrite Hs.
  destruct w as [hp nx cur services subscribed]. unfold with_heap. simpl in *.
  by rewrite insert_id.
Qed.

(** A destructor run on a constructed object releases its subscription
    as [release] does, after the warning if one is due, and then lets
    the client go. *)
Lemma __del___releases env self s w :
  heap w !! self = Some s ->
  _disable_wait_warning s = true \/ is_Some (_start_time s) ->
  exists warning,
    (warning = [] \/ warning = [EPrint _WAIT_INSTRUCTIONS])
    /\ __del__ env self w =
         (Ret tt, store (release (_port s) self w),
          warning ++ trace (release (_port s) self w) ++ [EClientDel]).
Proof.
  intros Hs Hok. unfold __del__.
  assert (Hrel : exists w1 t1, release (_port s) self w = (Ret tt, w1, t1)).
  { rewrite release_eq. destruct (decide _); [|eauto].
    destruct (_server_services w !! _port s); eauto. }
  destruct Hrel as (w1 & t1 & Hrel).
  unfold bind at 1, try_pass, bind at 1. rewrite (on_session_gets _ _ s w Hs).
  destruct (_disable_wait_warning s) eqn:Hdis; simpl negb; cbv iota.
  - exists []. split; [by left|].
    unfold bind, ret. rewrite (on_session_gets _ _ s w Hs), Hrel.
    reflexivity.
  - destruct Hok as [Hok|[t0 Hstart]]; [discriminate Hok|].
    unfold bind at 1 2. rewrite (on_session_gets _ _ s w Hs), Hstart.
    destruct (negb _).
    + exists [EPrint _WAIT_INSTRUCTIONS]. split; [by right|].
      unfold bind, emit. rewrite (on_session_gets _ _ s w Hs), Hrel.
      reflexivity.
    + exists []. split; [by left|].
      unfold bind, ret. rewrite (on_session_gets _ _ s w Hs), Hrel.
      reflexivity.
Qed.

(** ** What the methods leave alone *)

Lemma run_mutator_config env m s :
  config (store (run_mutator env m s)) = config s
  /\ _disable_wait_warning (store (run_mutator env m s))
     = _disable_wait_warning s.
Proof.
  destruct env as [ectx ? ? ? ? ? ? ?].
  break_session s; destruct m as [?|[?|]| |[?|]| |]; destruct ectx.
  all: split; reflexivity.
Qed.

Lemma open_leaves_session env s : store (open env s) = s.
Proof.
  destruct s as [ctx ? [|] ? ? ? ? [[|]|] ? [?|]]; destruct ctx;
    reflexivity.
Qed.

(** X1: no method of a session -- the mutators, [open], [close] --
    assigns anything but [state]: context, port, remote and auto flags,
    height, desktop flag, start time, app service and the warning switch
    are after the call what they were before, also when the call
    raises. *)
Theorem methods_only_write_state (env : Env) (meth : Method) (s : Session) :
  config (store (run_method env meth s)) = config s
  /\ _disable_wait_warning (store (run_method env meth s))
     = _disable_wait_warning s.
Proof.
  destruct meth as [m| |].
  - apply run_mutator_config.
  - simpl. rewrite open_leaves_session. auto.
  - destruct s as [? ? [|] ? ? ? ? ? ? ?]; split; reflexivity.
Qed.

Lemma open_pushes_nothing env s :
  pushed_states (trace (open env s)) = [] /\ store (open env s) = s.
Proof.
  split; [|apply open_leaves_session].
  destruct s as [ctx ? [|] ? ? ? ? [[|]|] ? [?|]]; destruct ctx;
    reflexivity.
Qed.

(** X2: [open] never changes the session, state included, and never
    pushes; it raises a [ValueError] exactly for a remote session or a
    session created in a notebook, and then has done nothing at all. *)
Theorem open_refuses_remote_and_notebook (env : Env) (s : Session) :
  store (open env s) = s
  /\ pushed_states (trace (open env s)) = []
  /\ ((exists msg, outcome (open env s) = Raise (ValueError msg))
      <-> _remote s = true \/ _context s <> _NONE)
  /\ match outcome (open env s) with
     | Raise _ => trace (open env s) = []
     | Ret _ => length (trace (open env s)) = 1%nat
     end.
Proof.
  split; [apply open_leaves_session|].
  destruct s as [ctx ? [|] ? ? ? ? [[|]|] ? [?|]]; destruct ctx.
  all: split; [reflexivity|]; split; [|reflexivity].
  all: split;
    [ intros [msg H]; first [discriminate H | by left | by right]
    | intros [H|H]; first [discriminate H | by destruct H | eexists; reflexivity] ].
Qed.

(** ** What a mutator pushes, raises and renders *)

(** X3: every state a decorated mutator pushes is the state the session
    is left in -- the remote side never sees a half-written update -- and
    that state carries the catalog as it is listed at the call. *)
Theorem mutator_pushes_final_state (env : Env) (m : Mutator) (s : Session) :
  Forall (fun st => st = state (store (run_mutator env m s)))
         (pushed_states (trace (run_mutator env m s)))
  /\ datasets (state (store (run_mutator env m s))) = list_datasets env.
Proof.
  destruct env as [ectx ? ? ? ? ? ? ?].
  break_session s; destruct m as [?|[?|]| |[?|]| |]; destruct ectx.
  all: split; [|reflexivity].
  all: vm_compute; repeat constructor.
Qed.

(** The outcome of a mutator, when each call it makes to a collaborator
    returns. *)
Lemma run_mutator_outcome (env : Env) (m : Mutator) (s : Session) :
  outcome (run_mutator env m s)
  = (if in_notebook s && no_notebook_now env && renders m (_auto s)
     then Raise (KeyError _NONE) else Ret tt)
  /\ match outcome (run_mutator env m s) with
     | Raise _ =>
         pushed_states (trace (run_mutator env m s)) = []
         /\ count_displays (trace (run_mutator env m s)) = 0%nat
     | Ret _ => pushed_states (trace (run_mutator env m s)) <> []
     end.
Proof.
  destruct env as [ectx ? ? ? ? ? ? ?].
  break_session s; destruct m as [?|[?|]| |[?|]| |]; destruct ectx.
  all: split; [reflexivity|].
  all: vm_compute; first [split; reflexivity | discriminate].
Qed.

(** X4: when a session created in a notebook is asked for a rendering
    ([show]; the [dataset] and [view] assignments, [clear_view] and
    [refresh] with [auto] on) while the current context is [_NONE], the
    call cannot complete: the renderer table of [_display] has no entry
    for [_NONE], so the call raises, and it has pushed nothing and
    rendered nothing. *)
Theorem render_without_notebook_raises
    (env : Env) (m : Mutator) (s : Session) :
  in_notebook s && no_notebook_now env && renders m (_auto s) = true ->
  (exists e, outcome (run_mutator env m s) = Raise e)
  /\ pushed_states (trace (run_mutator env m s)) = []
  /\ count_displays (trace (run_mutator env m s)) = 0%nat.
Proof.
  intros Hcond.
  destruct (run_mutator_outcome env m s) as [Hout Hrest].
  rewrite Hcond in Hout. rewrite Hout in Hrest. rewrite Hout. eauto.
Qed.

Lemma render_without_notebook_raises_witness :
  (exists e, outcome (run_mutator script_env MRefresh notebook_session)
             = Raise e)
  /\ pushed_states (trace (run_mutator script_env MRefresh notebook_session))
     = []
  /\ count_displays (trace (run_mutator script_env MRefresh notebook_session))
     = 0%nat.
Proof.
  apply (render_without_notebook_raises script_env MRefresh notebook_session).
  reflexivity.
Defined.

(** X5: a mutator renders the viewer at most once, and only for a
    session created in a notebook while there is a notebook: [show]
    always, the [dataset] and [view] assignments, [clear_view] and
    [refresh] when [auto] is on, [clear_dataset] never.  The frame is
    rendered by the renderer of the current context. *)
Theorem mutator_renders_at_most_once
    (env : Env) (m : Mutator) (s : Session) :
  count_displays (trace (run_mutator env m s))
  = (if in_notebook s && negb (no_notebook_now env) && renders m (_auto s)
     then 1%nat else 0%nat)
  /\ Forall (fun e => match e with
                      | EDisplay ctx port _ =>
                          ctx = _get_context env /\ port = _port s
                      | _ => True
                      end)
            (trace (run_mutator env m s)).
Proof.
  destruct env as [ectx ? ? ? ? ? ? ?].
  break_session s; destruct m as [?|[?|]| |[?|]| |]; destruct ectx.
  all: split; [reflexivity|].
  all: vm_compute; repeat constructor.
Qed.

(** X6: the close flag is one-way.  No method clears it; [close] on a
    session that is not remote is the only call that sets it; and every
    state pushed by a call carries the flag the session ends with, so
    after [close()] each later push still asks the App to close. *)
Theorem close_flag_is_one_way (env : Env) (meth : Method) (s : Session) :
  close (state (store (run_method env meth s)))
  = close (state s)
    || match meth with
       | MethClose => negb (_remote s)
       | _ => false
       end
  /\ Forall (fun st => close st
                       = close (state (store (run_method env meth s))))
            (pushed_states (trace (run_method env meth s))).
Proof.
  destruct meth as [m| |].
  - destruct env as [ectx ? ? ? ? ? ? ?].
    break_session s; destruct m as [?|[?|]| |[?|]| |]; destruct ectx.
    all: split; [simpl; by rewrite orb_false_r|].
    all: vm_compute; repeat constructor.
  - simpl. rewrite open_leaves_session. split; [by rewrite orb_false_r|].
    destruct (open_pushes_nothing env s) as [-> _].
    constructor.
  - destruct s as [? ? [|] ? ? ? [? ? ? ? ? ? [|]] ? ? ?]; split;
      try reflexivity; vm_compute; repeat constructor.
Qed.

(** ** The worlds a program can reach *)

Lemma subscribers_insert_ne (m : gmap Z (gset positive)) p q X :
  p <> q -> subscribers (<[p := X]> m) q = subscribers m q.
Proof. intros Hne. unfold subscribers. by rewrite lookup_insert_ne. Qed.

Ltac split_world_ok := split; [|split; [|split; [|split]]].

Lemma world_ok_initial : world_ok initial_world.
Proof.
  unfold world_ok, initial_world, subscribers. simpl. split_world_ok.
  - intros id s H. rewrite lookup_empty in H. discriminate H.
  - intros id H. discriminate H.
  - intros p id H. rewrite lookup_empty in H. simpl in H. set_solver.
  - intros p. rewrite !lookup_empty. simpl. split.
    + intros [x H]. discriminate H.
    + intros H. by destruct H.
  - intros p service H. rewrite lookup_empty in H. discriminate H.
Qed.

Lemma config_fields s1 s2 :
  config s1 = config s2 ->
  _port s1 = _port s2 /\ _start_time s1 = _start_time s2
  /\ _desktop s1 = _desktop s2.
Proof. unfold config. intros H. by simplify_eq. Qed.

Lemma world_ok_heap_update w id s s1 :
  world_ok w -> heap w !! id = Some s -> config s1 = config s ->
  world_ok (with_heap (<[id := s1]>) w).
Proof.
  intros (Hheap & Hsess & Hsubs & Hsrv & Hport) Hs Hcfg.
  apply config_fields in Hcfg as (Hp & Ht & Hd).
  unfold world_ok, with_heap. simpl. split_world_ok.
  - intros id0 s0 H. destruct (decide (id0 = id)) as [->|Hne].
    + rewrite lookup_insert_eq in H. simplify_eq. rewrite Ht, Hd.
      by apply (Hheap id s).
    + rewrite lookup_insert_ne in H by done. by apply (Hheap id0 s0).
  - intros id0 H. destruct (decide (id0 = id)) as [->|Hne].
    + rewrite lookup_insert_eq. eauto.
    + rewrite lookup_insert_ne by done. auto.
  - intros p id0 H. destruct (Hsubs p id0 H) as (s0 & Hs0 & Hp0).
    destruct (decide (id0 = id)) as [->|Hne].
    + exists s1. rewrite lookup_insert_eq. split; [done|].
      simplify_eq. congruence.
    + exists s0. by rewrite lookup_insert_ne.
  - exact Hsrv.
  - exact Hport.
Qed.

Lemma world_ok_on_session {A} w id (m : M Session A) :
  world_ok w -> (forall s, config (store (m s)) = config s) ->
  world_ok (store (on_session id m w)).
Proof.
  intros Hok Hm. unfold on_session.
  destruct (heap w !! id) as [s|] eqn:Hs; [|exact Hok].
  specialize (Hm s). destruct (m s) as [[o s1] t].
  by apply (world_ok_heap_update w id s s1).
Qed.

Lemma world_ok_set_session w x :
  world_ok w -> (forall id, x = Some id -> is_Some (heap w !! id)) ->
  world_ok (with__session x w).
Proof.
  intros (Hheap & Hsess & Hsubs & Hsrv & Hport) Hx.
  unfold world_ok, with__session. simpl. by split_world_ok.
Qed.

Lemma __init__self_config env dataset view port remote desktop auto height :
  let s := store (__init__self env dataset view desktop
                    (blank_session env port remote auto height)) in
  _port s = port
  /\ _start_time s = Some (perf_counter env)
  /\ _desktop s
     = Some (match desktop with
             | Some b => b
             | None =>
                 if decide (_get_context env = _NONE)
                 then config_desktop_app env else false
             end)
  /\ _context s = _get_context env
  /\ _remote s = remote
  /\ _auto s = auto
  /\ _height s = height
  /\ _disable_wait_warning s = false.
Proof.
  destruct env as [ectx ? cfg ? dev imp ? ?].
  destruct ectx, cfg, dev, imp, dataset, view, remote, auto,
    desktop as [[|]|]; repeat split; reflexivity.
Qed.

Lemma world_ok_init env dataset view port remote desktop auto height w :
  world_ok w ->
  let r := __init__ env dataset view port remote desktop auto height w in
  world_ok (store r)
  /\ is_Some (heap (store r) !! next_id w)
  /\ _session (store r) = _session w
  /\ next_id (store r) = Pos.succ (next_id w).
Proof.
  intros (Hheap & Hsess & Hsubs & Hsrv & Hport) r. subst r.
  rewrite __init___eq. cbv zeta. rewrite acquire_eq.
  destruct (__init__self_config env dataset view port remote desktop auto
              height) as (Hp & Ht & Hd & _).
  set (s1 := store (__init__self env dataset view desktop
                      (blank_session env port remote auto height))) in *.
  unfold store at 1 2 3 4, trace. cbn [fst snd heap next_id _session
    _server_services _subscribed_sessions].
  assert (Hfresh : heap w !! next_id w = None).
  { destruct (heap w !! next_id w) as [s|] eqn:Hs; [|done].
    destruct (Hheap _ _ Hs) as [Hlt _]. by apply Pos.lt_irrefl in Hlt. }
  split; [|split; [rewrite lookup_insert_eq; eauto|done]].
  unfold world_ok. cbn [heap next_id _session _server_services
    _subscribed_sessions]. split_world_ok.
  - intros id s H. destruct (decide (id = next_id w)) as [->|Hne].
    + rewrite lookup_insert_eq in H. simplify_eq.
      rewrite Ht, Hd. split; [apply Pos.lt_succ_diag_r|eauto].
    + rewrite lookup_insert_ne in H by done.
      destruct (Hheap _ _ H) as (Hlt & ? & ?).
      split; [by apply Pos.lt_lt_succ|done].
  - intros id H. destruct (decide (id = next_id w)) as [->|Hne].
    + rewrite lookup_insert_eq. eauto.
    + rewrite lookup_insert_ne by done. auto.
  - intros p id H. destruct (decide (p = port)) as [->|Hne].
    + rewrite subscribers_insert in H.
      apply elem_of_union in H as [H|H].
      * apply elem_of_singleton in H as ->. exists s1.
        by rewrite lookup_insert_eq.
      * destruct (Hsubs _ _ H) as (s & Hs & Hps). exists s.
        rewrite lookup_insert_ne by congruence. done.
    + rewrite subscribers_insert_ne in H by done.
      destruct (Hsubs _ _ H) as (s & Hs & Hps). exists s.
      rewrite lookup_insert_ne by congruence. done.
  - intros p. destruct (decide (p = port)) as [->|Hne].
    + rewrite subscribers_insert. split; [set_solver|]. intros _.
      destruct (_server_services w !! port) eqn:Hs;
        [rewrite Hs|rewrite lookup_insert_eq]; eauto.
    + rewrite subscribers_insert_ne by done. rewrite <- Hsrv.
      destruct (_server_services w !! port);
        [done|by rewrite lookup_insert_ne].
  - intros p service H.
    destruct (_server_services w !! port) eqn:Hs; [by apply Hport|].
    destruct (decide (p = port)) as [->|Hne].
    + rewrite lookup_insert_eq in H. by simplify_eq.
    + rewrite lookup_insert_ne in H by done. by apply Hport.
Qed.

Lemma world_ok_release p self w :
  world_ok w -> world_ok (store (release p self w)).
Proof.
  intros (Hheap & Hsess & Hsubs & Hsrv & Hport).
  rewrite release_eq.
  assert (Hin : forall q id,
            id ∈ subscribers
                   (<[p := subscribers (_subscribed_sessions w) p
                           ∖ {[self]}]> (_subscribed_sessions w)) q ->
            id ∈ subscribers (_subscribed_sessions w) q).
  { intros q id H. destruct (decide (q = p)) as [->|Hne].
    - rewrite subscribers_insert in H. set_solver.
    - by rewrite subscribers_insert_ne in H. }
  destruct (decide _) as [Hsz|Hsz];
    [destruct (_server_services w !! p) as [service|] eqn:Hs|].
  - apply size_empty_inv, leibniz_equiv in Hsz.
    unfold world_ok, store. simpl. split_world_ok; auto.
    + intros q. destruct (decide (q = p)) as [->|Hne].
      * rewrite subscribers_insert, lookup_delete_eq, Hsz.
        split; [by intros [? ?]|done].
      * rewrite subscribers_insert_ne, lookup_delete_ne by done. apply Hsrv.
    + intros q service0 H. apply lookup_delete_Some in H as [_ H].
      by apply Hport.
  - apply size_empty_inv, leibniz_equiv in Hsz.
    unfold world_ok, store. simpl. split_world_ok; auto.
    intros q. destruct (decide (q = p)) as [->|Hne].
    + rewrite subscribers_insert, Hs, Hsz. split; [by intros [? ?]|done].
    + rewrite subscribers_insert_ne by done. apply Hsrv.
  - unfold world_ok, store. simpl. split_world_ok; auto.
    intros q. destruct (decide (q = p)) as [->|Hne].
    + rewrite subscribers_insert. split; [intros _|].
      * intros Hempty. rewrite Hempty in Hsz. by rewrite size_empty in Hsz.
      * intros Hne. apply Hsrv. set_solver.
    + rewrite subscribers_insert_ne by done. apply Hsrv.
Qed.

Lemma close__eq s :
  close_ s =
    (Ret tt,
     (if _remote s then s else with_state (with_close true) s),
     (if _remote s then [] else [EPush (with_close true (state s))])).
Proof. destruct s as [? ? [|] ? ? ? ? ? ? ?]; reflexivity. Qed.

Lemma close_app_eq w :
  close_app w =
    match _session w with
    | None => (Ret tt, w, [])
    | Some id =>
        match heap w !! id with
        | Some s =>
            (Ret tt,
             with__session None (with_heap (<[id := store (close_ s)]>) w),
             trace (close_ s))
        | None => (Raise (AttributeError "self"), w, [])
        end
    end.
Proof.
  unfold close_app, bind, gets, on_session, SessionId. cbv beta iota.
  destruct (_session w) as [id|]; [|reflexivity].
  destruct (heap w !! id) as [s|] eqn:Hs; [|reflexivity].
  rewrite close__eq. unfold modify, store, trace. simpl.
  by rewrite app_nil_r.
Qed.

Lemma world_ok_close_app w :
  world_ok w ->
  outcome (close_app w) = Ret tt
  /\ world_ok (store (close_app w))
  /\ _session (store (close_app w)) = None
  /\ next_id (store (close_app w)) = next_id w.
Proof.
  intros Hok. rewrite close_app_eq.
  destruct (_session w) as [id|] eqn:Hid; [|done].
  destruct Hok as (Hheap & Hsess & Hrest).
  destruct (Hsess id Hid) as [s Hs]. rewrite Hs.
  split; [done|]. split; [|done].
  unfold store at 1. cbn [fst snd].
  apply world_ok_set_session; [|intros ? H; discriminate H].
  apply (world_ok_heap_update w id s); [by split_world_ok; tauto|done|].
  rewrite close__eq. by destruct s as [? ? [|] ? ? ? ? ? ? ?].
Qed.

Lemma __del___dangling env self w :
  heap w !! self = None ->
  __del__ env self w = (Ret tt, w, [EClientDel]).
Proof.
  intros Hs. unfold __del__, bind, try_pass, on_session. by rewrite Hs.
Qed.

(** With the warning on and no start time (an object that did not get
    to line 269), the comparison raises inside the [try], and the
    release is skipped. *)
Lemma __del___without_start_time env self s w :
  heap w !! self = Some s ->
  _disable_wait_warning s = false -> _start_time s = None ->
  __del__ env self w = (Ret tt, w, [EClientDel]).
Proof.
  intros Hs Hflag Hstart. unfold __del__.
  unfold bind at 1, try_pass, bind at 1.
  rewrite (on_session_gets _ _ s w Hs), Hflag. simpl negb. cbv iota.
  unfold bind at 1 2. rewrite (on_session_gets _ _ s w Hs), Hstart.
  reflexivity.
Qed.

Lemma world_ok_del env self w :
  world_ok w -> world_ok (store (__del__ env self w)).
Proof.
  intros Hok. destruct (heap w !! self) as [s|] eqn:Hs.
  - destruct Hok as (Hheap & Hrest).
    destruct (Hheap _ _ Hs) as (_ & Hstart & _).
    destruct (__del___releases env self s w Hs (or_intror Hstart))
      as (warning & _ & ->).
    unfold store at 1. cbn [fst snd].
    apply world_ok_release. by split.
  - by rewrite __del___dangling.
Qed.

Lemma launch_app_eq env dataset view port remote desktop auto height w w1 t1 :
  close_app w = (Ret tt, w1, t1) ->
  let r := __init__ env dataset view port remote desktop auto height w1 in
  exists info,
    (info = [] \/ exists msg, info = [EInfo msg])
    /\ launch_app env dataset view port remote desktop auto height w =
         match outcome r with
         | Ret id =>
             (Ret id, with__session (Some id) (store r),
              t1 ++ trace r ++ info)
         | Raise e => (Raise e, store r, t1 ++ trace r)
         end.
Proof.
  intros Hclose r.
  assert (Hlive : forall id, outcome r = Ret id ->
            exists s, heap (store r) !! id = Some s).
  { subst r. rewrite __init___eq. cbv zeta. unfold outcome, store. simpl.
    intros id H. destruct (fst (fst (__init__self _ _ _ _ _)));
      [|discriminate H].
    injection H as <-. rewrite lookup_insert_eq. eauto. }
  unfold launch_app. unfold bind at 1. rewrite Hclose.
  unfold bind at 1. fold r.
  destruct r as [[[id|e] w2] t2] eqn:Hr; unfold outcome, store, trace;
    cbn [fst snd]; [|exists []; split; [by left|reflexivity]].
  destruct (Hlive id eq_refl) as [s Hs]. unfold store in Hs. simpl in Hs.
  assert (Hs' : heap (with__session (Some id) w2) !! id = Some s) by done.
  unfold bind at 1, modify at 1.
  unfold bind at 1. rewrite (on_session_gets _ _ s _ Hs').
  unfold bind at 1. rewrite (on_session_gets _ _ s _ Hs').
  unfold bind at 1. rewrite (on_session_gets _ _ s _ Hs').
  unfold bind, emit, ret.
  destruct (_remote s);
    [eexists; split; [right; eexists; reflexivity|];
     simpl; by rewrite ?app_nil_r|].
  destruct (default false (_desktop s));
    [eexists; split; [right; eexists; reflexivity|];
     simpl; by rewrite ?app_nil_r|].
  destruct (negb (bool_decide (_get_context env = _NONE)) && negb auto);
    [eexists; split; [right; eexists; reflexivity|];
     simpl; by rewrite ?app_nil_r|].
  destruct (decide (_get_context env = _NONE));
    [eexists; split; [right; eexists; reflexivity|];
     simpl; by rewrite ?app_nil_r|].
  exists []. split; [by left|]. simpl. by rewrite ?app_nil_r.
Qed.

Lemma world_ok_launch env dataset view port remote desktop auto height w :
  world_ok w ->
  world_ok (store (launch_app env dataset view port remote desktop auto
                     height w)).
Proof.
  intros Hok.
  destruct (world_ok_close_app w Hok) as (Hret & Hok1 & _).
  destruct (close_app w) as [[o w1] t1] eqn:Hclose.
  unfold outcome, store in Hret, Hok1. simpl in Hret, Hok1. subst o.
  destruct (launch_app_eq env dataset view port remote desktop auto height
              w w1 t1 Hclose) as (info & _ & ->).
  destruct (world_ok_init env dataset view port remote desktop auto height
              w1 Hok1) as (Hok2 & Hlive & _).
  pose proof (__init___eq env dataset view port remote desktop auto height
                w1) as Heq. cbv zeta in Heq.
  destruct (outcome (__init__ _ _ _ _ _ _ _ _ w1)) as [id|e] eqn:Hout;
    [|exact Hok2].
  unfold store at 1. cbn [fst snd].
  apply world_ok_set_session; [exact Hok2|].
  intros id0 H. injection H as <-.
  rewrite Heq in Hout. unfold outcome in Hout. simpl in Hout.
  destruct (fst (fst (__init__self _ _ _ _ _))); [|discriminate Hout].
  injection Hout as <-. exact Hlive.
Qed.

Lemma world_ok_wait signals self w :
  world_ok w -> world_ok (snd (wait signals self w)).
Proof.
  intros Hok. unfold wait.
  destruct (heap w !! self) as [s|] eqn:Hs; [|exact Hok].
  cbv zeta.
  match goal with
  | |- context [match ?r with WReturn => _ | WRaise _ => _ | WPending => _ end] =>
      destruct r as [|[|e]|]; try exact Hok
  end.
  simpl. by apply (world_ok_heap_update w self s).
Qed.

Lemma run_method_config env meth s :
  config (store (run_method env meth s)) = config s.
Proof.
  destruct meth as [m| |].
  - apply run_mutator_config.
  - simpl. by rewrite open_leaves_session.
  - simpl. rewrite close__eq. by destruct (_remote s).
Qed.

Lemma world_ok_run_op env o w : world_ok w -> world_ok (run_op env o w).
Proof.
  intros Hok. destruct o as [a|a| |self|self meth|self signals]; simpl.
  - by apply world_ok_init.
  - by apply world_ok_launch.
  - by apply world_ok_close_app.
  - by apply world_ok_del.
  - apply world_ok_on_session; [done|]. apply run_method_config.
  - by apply world_ok_wait.
Qed.

Lemma reachable_world_ok ops : world_ok (run_ops ops initial_world).
Proof.
  assert (H : forall w, world_ok w -> world_ok (run_ops ops w)).
  { induction ops as [|[env o] ops IH]; intros w Hok; [exact Hok|].
    simpl. apply IH. by apply world_ok_run_op. }
  apply H, world_ok_initial.
Qed.

(** X7: in every world a program can reach, a port has a server entry
    exactly when some session is subscribed to it, and the entry is the
    server of that port. *)
Theorem reachable_registry_consistent (ops : list (Env * Op)) (p : Z) :
  let w := run_ops ops initial_world in
  (is_Some (_server_services w !! p)
   <-> subscribers (_subscribed_sessions w) p <> ∅)
  /\ (forall service, _server_services w !! p = Some service ->
        service_port service = p).
Proof.
  destruct (reachable_world_ok ops) as (_ & _ & _ & Hsrv & Hport).
  simpl. split; [apply Hsrv|]. intros service. apply Hport.
Qed.

(** X8: in every world a program can reach, the subscriber sets and
    [_session] only refer to session objects that exist; a subscriber
    of a port is a session whose [_port] is that port, so no session is
    subscribed to two ports. *)
Theorem reachable_references_live (ops : list (Env * Op)) :
  let w := run_ops ops initial_world in
  (forall p id, id ∈ subscribers (_subscribed_sessions w) p ->
     exists s, heap w !! id = Some s /\ _port s = p)
  /\ (forall id, _session w = Some id -> is_Some (heap w !! id))
  /\ (forall p q id,
        id ∈ subscribers (_subscribed_sessions w) p ->
        id ∈ subscribers (_subscribed_sessions w) q -> p = q).
Proof.
  destruct (reachable_world_ok ops) as (Hheap & Hsess & Hsubs & _).
  simpl. split; [exact Hsubs|split; [exact Hsess|]].
  intros p q id Hp Hq.
  destruct (Hsubs p id Hp) as (s & Hs & <-).
  destruct (Hsubs q id Hq) as (s' & Hs' & <-). congruence.
Qed.

(** X9: in every world a program can reach, [close_app] returns; no
    session is active afterwards; servers and subscriptions are as
    before (closing releases nothing); and a second [close_app] has no
    effect at all. *)
Theorem close_app_in_reachable_world (ops : list (Env * Op)) :
  let w := run_ops ops initial_world in
  let r := close_app w in
  outcome r = Ret tt
  /\ _session (store r) = None
  /\ registry (store r) = registry w
  /\ close_app (store r) = (Ret tt, store r, []).
Proof.
  intros w r.
  destruct (world_ok_close_app w (reachable_world_ok ops))
    as (Hret & _ & Hnone & _).
  fold r in Hret, Hnone.
  split; [done|]. split; [done|]. split.
  - apply (close_app_keeps registry registry_with_heap
             registry_with__session).
  - rewrite close_app_eq. by rewrite Hnone.
Qed.

(** ** The destructor and double releases *)

Lemma store_mk {S A} (o : Outcome A) (s : S) (t : list Event) :
  store (o, s, t) = s.
Proof. reflexivity. Qed.

Lemma trace_mk {S A} (o : Outcome A) (s : S) (t : list Event) :
  trace (o, s, t) = t.
Proof. reflexivity. Qed.

Lemma release_returns p self w :
  outcome (release p self w) = Ret tt
  /\ count_prints (trace (release p self w)) = 0%nat.
Proof.
  rewrite release_eq. destruct (decide _); [|done].
  by destruct (_server_services w !! p).
Qed.

(** The warning is off: nothing is printed. *)
Lemma __del___quiet env self s w :
  heap w !! self = Some s ->
  _disable_wait_warning s = true ->
  __del__ env self w =
    (Ret tt, store (release (_port s) self w),
     trace (release (_port s) self w) ++ [EClientDel]).
Proof.
  intros Hs Hflag. unfold __del__.
  destruct (release_returns (_port s) self w) as [Hret _].
  destruct (release (_port s) self w) as [[o w1] t1] eqn:Hrel.
  unfold outcome in Hret. simpl in Hret. subst o.
  unfold bind at 1, try_pass, bind at 1.
  rewrite (on_session_gets _ _ s w Hs), Hflag. simpl negb. cbv iota.
  unfold bind, ret. rewrite (on_session_gets _ _ s w Hs), Hrel.
  reflexivity.
Qed.

(** X10: the [try] of the destructor takes every exception of its
    body, so the destructor reaches the client's own destructor, its
    last step, whatever object it is run on and whatever the world.
    For an identity that is no session, and for a session whose start
    time is missing while the warning is on (the age test raises inside
    the [try]), nothing else happens: servers and subscriptions stay.
    In every other case the subscription is released exactly as lines
    314-321 say, after the wait instructions if they are due, and never
    after them when the warning is off. *)
Theorem del_never_raises (env : Env) (self : SessionId) (w : World) :
  let r := __del__ env self w in
  outcome r = Ret tt
  /\ last (trace r) = Some EClientDel
  /\ match heap w !! self with
     | None => r = (Ret tt, w, [EClientDel])
     | Some s =>
         match _disable_wait_warning s, _start_time s with
         | false, None => r = (Ret tt, w, [EClientDel])
         | true, _ =>
             r = (Ret tt, store (release (_port s) self w),
                  trace (release (_port s) self w) ++ [EClientDel])
         | false, Some _ =>
             exists warning,
               (warning = [] \/ warning = [EPrint _WAIT_INSTRUCTIONS])
               /\ r = (Ret tt, store (release (_port s) self w),
                       warning ++ trace (release (_port s) self w)
                       ++ [EClientDel])
         end
     end.
Proof.
  intros r. subst r. unfold SessionId in *.
  destruct (heap w !! self) as [s|] eqn:Hs;
    [|rewrite (__del___dangling env self w Hs); auto].
  destruct (_disable_wait_warning s) eqn:Hflag.
  - rewrite (__del___quiet env self s w Hs Hflag).
    split; [done|]. split; [|done].
    by rewrite trace_mk, last_snoc.
  - destruct (_start_time s) as [t0|] eqn:Hstart.
    + destruct (__del___releases env self s w Hs
                  (or_intror (ex_intro _ t0 Hstart)))
        as (warning & Hw & ->).
      split; [done|]. split; [|eauto].
      by rewrite trace_mk, !app_assoc, last_snoc.
    + rewrite (__del___without_start_time env self s w Hs Hflag Hstart).
      auto.
Qed.

(** X11: releasing the same subscriber twice is safe: the second
    release changes nothing and stops nothing. *)
Theorem release_twice (p : Z) (self : SessionId) (w : World) :
  release p self (store (release p self w))
  = (Ret tt, store (release p self w), []).
Proof.
  assert (Hset : forall X : gset positive, X ∖ {[self]} ∖ {[self]}
                                           = X ∖ {[self]})
    by set_solver.
  rewrite (release_eq p self (store _)), (release_eq p self w).
  destruct (decide (size (subscribers (_subscribed_sessions w) p
                          ∖ {[self]}) = 0%nat)) as [Hsz|Hsz];
    [destruct (_server_services w !! p) as [service|] eqn:Hs|];
    unfold store; cbn [fst snd heap next_id _session _server_services
                       _subscribed_sessions];
    rewrite subscribers_insert, Hset, insert_insert_eq;
    (destruct (decide _) as [Hsz2|Hsz2]; [|done]).
  - by rewrite lookup_delete_eq.
  - by rewrite Hs.
  - by destruct Hsz.
Qed.

(** ** The constructor, case by case *)

Lemma pushed_states_app t1 t2 :
  pushed_states (t1 ++ t2) = pushed_states t1 ++ pushed_states t2.
Proof.
  induction t1 as [|e t1 IH]; [done|]. destruct e; simpl; by rewrite ?IH.
Qed.


Lemma stopped_ports_app t1 t2 :
  stopped_ports (t1 ++ t2) = stopped_ports t1 ++ stopped_ports t2.
Proof.
  induction t1 as [|e t1 IH]; [done|]. destruct e; simpl; by rewrite ?IH.
Qed.

Lemma __init__self_table env dataset view port remote desktop auto height :
  let r := __init__self env dataset view desktop
             (blank_session env port remote auto height) in
  outcome r
  = match construction_error env remote desktop with
    | Some e => Raise e
    | None => Ret tt
    end
  /\ state (store r) = loaded_state env dataset view
  /\ pushed_states (trace r)
     = match view, dataset with
       | None, None => []
       | _, _ =>
           if negb (bool_decide (_get_context env = _NONE)) && auto
           then [loaded_state env dataset view;
                 loaded_state env dataset view]
           else [loaded_state env dataset view]
       end
  /\ ui_events (trace r)
     = (if negb (bool_decide (_get_context env = _NONE)) || remote then []
        else if negb (resolved_desktop env desktop) then
          [EBrowserOpen ("http://localhost:" +:+ pretty port)]
        else if desktop_importable env || DEV_INSTALL env then
          [EAppServiceNew port]
        else [])
  /\ _app_service (store r)
     = (if bool_decide (_get_context env = _NONE) && negb remote
           && resolved_desktop env desktop
           && (desktop_importable env || DEV_INSTALL env)
        then Some port else None)
  /\ infos (trace r) = [].
Proof.
  destruct env as [ectx ? cfg ? dev imp ? ?].
  destruct ectx, cfg, dev, imp, dataset, view, remote, auto,
    desktop as [[|]|]; repeat split; reflexivity.
Qed.

Lemma __init___outcome env dataset view port remote desktop auto height w :
  outcome (__init__ env dataset view port remote desktop auto height w)
  = match outcome (__init__self env dataset view desktop
                     (blank_session env port remote auto height)) with
    | Ret _ => Ret (next_id w)
    | Raise e => Raise e
    end.
Proof. rewrite __init___eq. reflexivity. Qed.

Lemma __init___trace env dataset view port remote desktop auto height w :
  trace (__init__ env dataset view port remote desktop auto height w)
  = trace (acquire env port (next_id w) w)
    ++ trace (__init__self env dataset view desktop
                (blank_session env port remote auto height)).
Proof. rewrite __init___eq. reflexivity. Qed.

Lemma __init___heap env dataset view port remote desktop auto height w :
  heap (store (__init__ env dataset view port remote desktop auto height w))
  = <[next_id w := store (__init__self env dataset view desktop
                            (blank_session env port remote auto height))]>
      (heap w).
Proof. rewrite __init___eq. reflexivity. Qed.

Lemma __init___session env dataset view port remote desktop auto height w :
  _session (store (__init__ env dataset view port remote desktop auto
                     height w))
  = _session w.
Proof. rewrite __init___eq. reflexivity. Qed.

Lemma acquire_trace_quiet env port self w :
  pushed_states (trace (acquire env port self w)) = []
  /\ ui_events (trace (acquire env port self w)) = [].
Proof.
  rewrite acquire_eq. by destruct (_server_services w !! port).
Qed.

Lemma __init___outcome_table env a w :
  let r := __init__ env (arg_dataset a) (arg_view a) (arg_port a)
             (arg_remote a) (arg_desktop a) (arg_auto a) (arg_height a) w in
  outcome r
  = match construction_error env (arg_remote a) (arg_desktop a) with
    | Some e => Raise e
    | None => Ret (next_id w)
    end
  /\ _session (store r) = _session w.
Proof.
  intros r. subst r. rewrite __init___outcome, __init___session.
  destruct (__init__self_table env (arg_dataset a) (arg_view a) (arg_port a)
              (arg_remote a) (arg_desktop a) (arg_auto a) (arg_height a))
    as (Hout & _).
  rewrite Hout. by destruct (construction_error _ _ _).
Qed.



(** X13: a new session starts from the view when one is given (the
    dataset argument is then ignored), else from the dataset, else from
    the client's empty state.  What it pushes while being constructed is
    that state: twice in a notebook with [auto], once otherwise, and not
    at all when neither a view nor a dataset is given.  This holds also
    when the constructor goes on to raise. *)
Theorem constructor_loads_view_or_dataset
    (env : Env) (a : Args) (w : World) :
  let r := __init__ env (arg_dataset a) (arg_view a) (arg_port a)
             (arg_remote a) (arg_desktop a) (arg_auto a) (arg_height a) w in
  (state <$> heap (store r) !! next_id w)
  = Some (loaded_state env (arg_dataset a) (arg_view a))
  /\ pushed_states (trace r)
     = match arg_view a, arg_dataset a with
       | None, None => []
       | _, _ =>
           if negb (bool_decide (_get_context env = _NONE)) && arg_auto a
           then [loaded_state env (arg_dataset a) (arg_view a);
                 loaded_state env (arg_dataset a) (arg_view a)]
           else [loaded_state env (arg_dataset a) (arg_view a)]
       end.
Proof.
  intros r. subst r. rewrite __init___trace, __init___heap.
  destruct (__init__self_table env (arg_dataset a) (arg_view a) (arg_port a)
              (arg_remote a) (arg_desktop a) (arg_auto a) (arg_height a))
    as (_ & Hst & Hpush & _).
  destruct (acquire_trace_quiet env (arg_port a) (next_id w) w) as [Hq _].
  rewrite pushed_states_app, Hq, Hpush, lookup_insert_eq. simpl.
  by rewrite Hst.
Qed.

(** ** [launch_app] and [__del__] in the worlds a program can reach *)

(** X14: in every world a program can reach, [launch_app] subscribes
    the new object and releases nothing.  When it returns, the object
    returned is the new one and it is the active session.  When it
    raises, it raises one of the constructor's three errors, and no
    session is active any more, the previous one having been closed. *)
Theorem launch_app_in_reachable_world
    (ops : list (Env * Op)) (env : Env) (a : Args) :
  let w := run_ops ops initial_world in
  let r := launch_app env (arg_dataset a) (arg_view a) (arg_port a)
             (arg_remote a) (arg_desktop a) (arg_auto a) (arg_height a) w in
  registry (store r)
  = registry (store (acquire env (arg_port a) (next_id w) w))
  /\ outcome r
     = match construction_error env (arg_remote a) (arg_desktop a) with
       | Some e => Raise e
       | None => Ret (next_id w)
       end
  /\ _session (store r)
     = match construction_error env (arg_remote a) (arg_desktop a) with
       | Some _ => None
       | None => Some (next_id w)
       end.
Proof.
  intros w r.
  destruct (world_ok_close_app w (reachable_world_ok ops))
    as (Hret & Hok1 & Hnone & Hid).
  split; [by apply launch_app_registry|].
  destruct (close_app w) as [[o w1] t1] eqn:Hclose.
  unfold outcome, store in Hret, Hok1, Hnone, Hid.
  simpl in Hret, Hok1, Hnone, Hid. subst o.
  destruct (launch_app_eq env (arg_dataset a) (arg_view a) (arg_port a)
              (arg_remote a) (arg_desktop a) (arg_auto a) (arg_height a)
              w w1 t1 Hclose) as (info & _ & Heq).
  subst r. rewrite Heq.
  destruct (__init___outcome_table env a w1) as [Hout Hsess].
  rewrite Hout, Hid.
  destruct (construction_error _ _ _); split; try reflexivity.
  unfold store at 1. cbn [fst snd]. by rewrite Hsess.
Qed.

Lemma release_subscribed p self w :
  _subscribed_sessions (store (release p self w))
  = <[p := subscribers (_subscribed_sessions w) p ∖ {[self]}]>
      (_subscribed_sessions w).
Proof.
  rewrite release_eq. destruct (decide _); [|done].
  by destruct (_server_services w !! p).
Qed.

Lemma release_trace_ok p self w :
  world_ok w ->
  trace (release p self w)
  = if decide (subscribers (_subscribed_sessions w) p = {[self]})
    then [EServerStop p] else [].
Proof.
  intros (_ & _ & _ & Hsrv & Hport). rewrite release_eq.
  destruct (decide (subscribers (_subscribed_sessions w) p = {[self]}))
    as [Hone|Hmore].
  - rewrite Hone, difference_diag_L.
    destruct (decide _) as [_|Hsz]; [|by destruct Hsz].
    destruct (proj2 (Hsrv p)) as [service Hs].
    { rewrite Hone. set_solver. }
    rewrite Hs. simpl. by rewrite (Hport p service Hs).
  - destruct (decide _) as [Hsz|Hsz]; [|done].
    destruct (_server_services w !! p) as [service|] eqn:Hs; [|done].
    apply size_empty_inv, leibniz_equiv in Hsz.
    assert (Hne : subscribers (_subscribed_sessions w) p <> ∅)
      by (apply Hsrv; eauto).
    destruct Hmore. apply set_eq. intros x. split.
    + intros Hx. destruct (decide (x = self)) as [->|Hxs]; [set_solver|].
      assert (x ∈ subscribers (_subscribed_sessions w) p ∖ {[self]})
        by set_solver.
      rewrite Hsz in *. set_solver.
    + intros Hx. apply elem_of_singleton in Hx as ->.
      apply set_choose_L in Hne as [y Hy].
      destruct (decide (y = self)) as [->|Hys]; [done|].
      assert (y ∈ subscribers (_subscribed_sessions w) p ∖ {[self]})
        by set_solver.
      rewrite Hsz in *. set_solver.
Qed.

Lemma world_ok_registry_ok w : world_ok w -> registry_ok w.
Proof. intros (_ & _ & Hsubs & Hsrv & Hport). by split. Qed.

Lemma release_trace_registry_ok p self w :
  registry_ok w ->
  trace (release p self w)
  = if decide (subscribers (_subscribed_sessions w) p = {[self]})
    then [EServerStop p] else [].
Proof.
  intros (_ & Hsrv & Hport). rewrite release_eq.
  destruct (decide (subscribers (_subscribed_sessions w) p = {[self]}))
    as [Hone|Hmore].
  - rewrite Hone, difference_diag_L.
    destruct (decide _) as [_|Hsz]; [|by destruct Hsz].
    destruct (proj2 (Hsrv p)) as [service Hs].
    { rewrite Hone. set_solver. }
    rewrite Hs. simpl. by rewrite (Hport p service Hs).
  - destruct (decide _) as [Hsz|Hsz]; [|done].
    destruct (_server_services w !! p) as [service|] eqn:Hs; [|done].
    apply size_empty_inv, leibniz_equiv in Hsz.
    assert (Hne : subscribers (_subscribed_sessions w) p <> ∅)
      by (apply Hsrv; eauto).
    destruct Hmore. apply set_eq. intros x. split.
    + intros Hx. destruct (decide (x = self)) as [->|Hxs]; [set_solver|].
      assert (x ∈ subscribers (_subscribed_sessions w) p ∖ {[self]})
        by set_solver.
      rewrite Hsz in *. set_solver.
    + intros Hx. apply elem_of_singleton in Hx as ->.
      apply set_choose_L in Hne as [y Hy].
      destruct (decide (y = self)) as [->|Hys]; [done|].
      assert (y ∈ subscribers (_subscribed_sessions w) p ∖ {[self]})
        by set_solver.
      rewrite Hsz in *. set_solver.
Qed.

(** X15: take a world where the subscribers of a port are sessions of
    that port, a port has a server exactly when it has subscribers, and
    each server knows its port.  After the destructor of a session that
    has its start time, or has the warning off, that session is
    subscribed to no port; the server of its port is stopped exactly
    when it was the only subscriber of that port, and no other server
    is stopped.  A session without start time and with the warning on
    keeps its subscription: the destructor only lets the client go, as
    it does for an identity that is no session. *)
Theorem del_unsubscribes_and_stops_last_server
    (env : Env) (self : SessionId) (w : World) :
  registry_ok w ->
  let r := __del__ env self w in
  match heap w !! self with
  | None =>
      r = (Ret tt, w, [EClientDel])
      /\ forall p, self ∉ subscribers (_subscribed_sessions w) p
  | Some s =>
      match _disable_wait_warning s, _start_time s with
      | false, None => r = (Ret tt, w, [EClientDel])
      | _, _ =>
          (forall p, self ∉ subscribers (_subscribed_sessions (store r)) p)
          /\ store r = store (release (_port s) self w)
          /\ stopped_ports (trace r)
             = (if decide (subscribers (_subscribed_sessions w) (_port s)
                           = {[self]})
                then [_port s] else [])
      end
  end.
Proof.
  intros Hok r. pose proof Hok as (Hsubs & Hsrv & Hport).
  unfold SessionId in *.
  destruct (heap w !! self) as [s|] eqn:Hs.
  - assert (Hdone : forall warning,
              (warning = [] \/ warning = [EPrint _WAIT_INSTRUCTIONS]) ->
              r = (Ret tt, store (release (_port s) self w),
                   warning ++ trace (release (_port s) self w)
                   ++ [EClientDel]) ->
              (forall p,
                 self ∉ subscribers (_subscribed_sessions (store r)) p)
              /\ store r = store (release (_port s) self w)
              /\ stopped_ports (trace r)
                 = (if decide (subscribers (_subscribed_sessions w)
                                 (_port s) = {[self]})
                    then [_port s] else [])).
    { intros warning Hwarn ->. rewrite !store_mk, !trace_mk.
      split; [|split; [done|]].
      - intros p. rewrite release_subscribed.
        destruct (decide (p = _port s)) as [->|Hne].
        + rewrite subscribers_insert. set_solver.
        + rewrite subscribers_insert_ne by done. intros Hin.
          destruct (Hsubs _ _ Hin) as (s' & Hs' & Hp). congruence.
      - rewrite !stopped_ports_app, release_trace_registry_ok by done.
        destruct Hwarn as [->| ->]; destruct (decide _); reflexivity. }
    destruct (_disable_wait_warning s) eqn:Hflag.
    + assert (Hq := __del___quiet env self s w Hs Hflag).
      destruct (_start_time s); apply (Hdone []); auto.
    + destruct (_start_time s) as [t0|] eqn:Hstart.
      * destruct (__del___releases env self s w Hs
                    (or_intror (ex_intro _ t0 Hstart)))
          as (warning & Hw & Heq).
        by apply (Hdone warning).
      * apply (__del___without_start_time env self s w Hs Hflag Hstart).
  - split; [apply (__del___dangling env self w Hs)|].
    intros p Hin. destruct (Hsubs _ _ Hin) as (s' & Hs' & _). congruence.
Qed.

Lemma del_unsubscribes_and_stops_last_server_witness :
  let w :=
    run_ops [(script_env,
              OpSession (mkArgs None None 5151 false None true (Some 800)))]
            initial_world in
  let r := __del__ script_env 1%positive w in
  match heap w !! 1%positive with
  | None =>
      r = (Ret tt, w, [EClientDel])
      /\ forall p, 1%positive ∉ subscribers (_subscribed_sessions w) p
  | Some s =>
      match _disable_wait_warning s, _start_time s with
      | false, None => r = (Ret tt, w, [EClientDel])
      | _, _ =>
          (forall p,
             1%positive ∉ subscribers (_subscribed_sessions (store r)) p)
          /\ store r = store (release (_port s) 1%positive w)
          /\ stopped_ports (trace r)
             = (if decide (subscribers (_subscribed_sessions w) (_port s)
                           = {[1%positive]})
                then [_port s] else [])
      end
  end.
Proof.
  apply (del_unsubscribes_and_stops_last_server script_env 1%positive
           (run_ops
              [(script_env,
                OpSession (mkArgs None None 5151 false None true (Some 800)))]
              initial_world)).
  apply world_ok_registry_ok, reachable_world_ok.
Defined.

(** ** [wait] *)

Lemma count_prints_app t1 t2 :
  count_prints (t1 ++ t2) = (count_prints t1 + count_prints t2)%nat.
Proof.
  induction t1 as [|e t1 IH]; [done|]. destruct e; simpl; by rewrite ?IH.
Qed.

Lemma sleep_loop_never_returns signals : sleep_loop signals <> WReturn.
Proof.
  induction signals as [|[| |e] signals IH]; simpl; congruence.
Qed.

Lemma wait_live signals self s w :
  heap w !! self = Some s ->
  exists result,
    wait signals self w =
      (result,
       match result with
       | WRaise KeyboardInterrupt =>
           with_heap (<[self := with__disable_wait_warning true s]>) w
       | _ => w
       end).
Proof.
  intros Hs. unfold wait. unfold SessionId in *. rewrite Hs. cbv zeta.
  set (result :=
         match (if _remote s then Some true else negb <$> _desktop s) with
         | Some true => _
         | Some false => _
         | None => _
         end).
  exists result. by destruct result as [|[|e]|].
Qed.

(** X16: [wait] changes the world in one case only: when it raises
    [KeyboardInterrupt] it has switched the session's warning off, and
    the destructor run afterwards prints nothing.  In every other case
    -- still blocked, returned, another exception -- the world is as it
    was. *)
Theorem interrupted_wait_silences_del
    (env : Env) (signals : list Signal) (self : SessionId) (w : World) :
  match fst (wait signals self w) with
  | WRaise KeyboardInterrupt =>
      (exists s, heap w !! self = Some s
                 /\ snd (wait signals self w)
                    = with_heap (<[self := with__disable_wait_warning true s]>)
                        w)
      /\ count_prints (trace (__del__ env self (snd (wait signals self w))))
         = 0%nat
  | _ => snd (wait signals self w) = w
  end.
Proof.
  unfold SessionId in *.
  destruct (heap w !! self) as [s|] eqn:Hs;
    [|unfold wait, SessionId; by rewrite Hs].
  destruct (wait_live signals self s w Hs) as (result & ->).
  destruct result as [|[|e]|]; try reflexivity.
  cbn [fst snd]. split; [eauto|].
  rewrite (__del___quiet env self (with__disable_wait_warning true s)).
  - rewrite trace_mk, count_prints_app.
    by rewrite (proj2 (release_returns _ _ _)).
  - unfold with_heap. simpl. apply lookup_insert_eq.
  - reflexivity.
Qed.

(** X17: [wait] returns only when the process it waits for has ended:
    the first blocking call must be the wait on the port's server (for a
    remote session or one without the desktop App) or on the App service
    (for a desktop session), and it must return.  Once in the sleep loop
    -- no server registered for the port, or the server wait failed --
    [wait] never returns. *)
Theorem wait_returns_only_when_the_process_ends
    (signals : list Signal) (self : SessionId) (w : World) :
  fst (wait signals self w) = WReturn
  <-> exists s rest,
        heap w !! self = Some s
        /\ signals = Finished :: rest
        /\ (((_remote s = true \/ _desktop s = Some false)
             /\ is_Some (_server_services w !! _port s))
            \/ (_remote s = false /\ _desktop s = Some true
                /\ is_Some (_app_service s))).
Proof.
  unfold wait. unfold SessionId in *.
  destruct (heap w !! self) as [s|] eqn:Hs.
  2:{ split; [intros H; discriminate H|].
      intros (s & rest & H & _). discriminate H. }
  cbv zeta.
  assert (Hfst : forall r : WaitResult,
            fst (match r with
                 | WRaise KeyboardInterrupt =>
                     (r, with_heap
                           (<[self := with__disable_wait_warning true s]>) w)
                 | _ => (r, w)
                 end) = r).
  { intros [|[|e]|]; reflexivity. }
  rewrite Hfst. clear Hfst.
  pose proof sleep_loop_never_returns as Hloop.
  destruct s as [ctx port [|] flag auto height st [[|]|] start [app|]];
    simpl in *;
    destruct (_server_services w !! port) as [service|] eqn:Hsrv;
    destruct signals as [|[| |e] rest]; simpl.
  all: split;
    [ intros H;
      first [ discriminate H
            | by apply Hloop in H
            | eexists _, _; split; [reflexivity|]; split; [reflexivity|];
              first [ left; split; [by auto|by eauto]
                    | right; split; [reflexivity|]; split; [reflexivity|];
                      by eauto ] ]
    | intros (s' & rest' & Hs' & Hsig & Hcase);
      simplify_eq; try reflexivity;
      destruct Hcase as [[[H|H] [x Hx]]|(H1 & H2 & [x Hx])];
      simpl in *; simplify_eq; try congruence ].
Qed.

(** X18: a keyboard interrupt that arrives while [wait] is blocked on
    the port's server does not end the wait: the bare [except] takes it
    and [wait] goes on in the sleep loop, so that it is the next
    interrupt that is raised to the caller. *)
Theorem wait_swallows_first_interrupt
    (signals : list Signal) (self : SessionId) (s : Session) (w : World) :
  heap w !! self = Some s ->
  _remote s = true \/ _desktop s = Some false ->
  is_Some (_server_services w !! _port s) ->
  fst (wait (Interrupted :: signals) self w) = sleep_loop signals
  /\ fst (wait [Interrupted] self w) = WPending
  /\ fst (wait [Interrupted; Finished; Interrupted] self w)
     = WRaise KeyboardInterrupt.
Proof.
  intros Hs Hmode [service Hsrv]. unfold wait. unfold SessionId in *.
  rewrite Hs, Hsrv. cbv zeta.
  assert (Hbranch : (if _remote s then Some true else negb <$> _desktop s)
                    = Some true).
  { destruct Hmode as [->| ->]; [done|]. by destruct (_remote s). }
  rewrite Hbranch. simpl.
  split; [|done]. by destruct (sleep_loop signals) as [|[|e]|].
Qed.

Lemma wait_swallows_first_interrupt_witness :
  let w := store (__init__ script_env None None 5151 false None true
                    (Some 800) initial_world) in
  fst (wait (Interrupted :: [Finished; Finished]) 1%positive w)
  = sleep_loop [Finished; Finished]
  /\ fst (wait [Interrupted] 1%positive w) = WPending
  /\ fst (wait [Interrupted; Finished; Interrupted] 1%positive w)
     = WRaise KeyboardInterrupt.
Proof.
  apply (wait_swallows_first_interrupt [Finished; Finished] 1%positive
           (mkSession _NONE 5151 false false true (Some 800) empty_state
                      (Some false) (Some 0%Q) None)).
  - vm_compute. reflexivity.
  - right. reflexivity.
  - vm_compute. eauto.
Defined.

(** ** The state a mutator leaves, and the independence of ports *)

(** The state a mutator leaves, when each call it makes to a
    collaborator returns. *)
Lemma run_mutator_final_state (env : Env) (m : Mutator) (s : Session) :
  state (store (run_mutator env m s))
  = with_datasets (list_datasets env) (mutator_fields m (state s)).
Proof.
  destruct env as [ectx ? ? ? ? ? ? ?].
  break_session s; destruct m as [?|[?|]| |[?|]| |]; destruct ectx.
  all: reflexivity.
Qed.

(** X19: when a decorated mutator returns, the state it leaves is the
    state before with that mutator's own assignments and the fresh
    catalog, and nothing else: [show] and [refresh] change the catalog
    only; [clear_dataset] drops the dataset and [clear_view] the view,
    both keeping the selection, the selected objects and the filters;
    the [dataset] and [view] assignments clear those. *)
Theorem mutator_final_state (env : Env) (m : Mutator) (s : Session) :
  outcome (run_mutator env m s) = Ret tt ->
  state (store (run_mutator env m s))
  = with_datasets (list_datasets env) (mutator_fields m (state s)).
Proof. intros _. apply run_mutator_final_state. Qed.

Lemma mutator_final_state_witness :
  state (store (run_mutator notebook_env MClearView notebook_session))
  = mkState ["quickstart"] (Some quickstart) None
            ["5f8d254a27ad06815ab89ad4"] []
            {["ground_truth" := "cat"]} false.
Proof.
  rewrite (mutator_final_state notebook_env MClearView notebook_session).
  - reflexivity.
  - reflexivity.
Defined.

(** X20: ports are independent in the registry.  In every world a
    program can reach, subscribing to a port or releasing a subscription
    of a port leaves the server entry and the subscribers of every other
    port as they were, and stops no server of another port. *)
Theorem other_ports_untouched
    (ops : list (Env * Op)) (env : Env) (p q : Z) (self : SessionId) :
  p <> q ->
  let w := run_ops ops initial_world in
  (_server_services (store (acquire env p self w)) !! q
   = _server_services w !! q
   /\ subscribers (_subscribed_sessions (store (acquire env p self w))) q
      = subscribers (_subscribed_sessions w) q)
  /\ (_server_services (store (release p self w)) !! q
      = _server_services w !! q
      /\ subscribers (_subscribed_sessions (store (release p self w))) q
         = subscribers (_subscribed_sessions w) q)
  /\ stopped_ports (trace (acquire env p self w)) = []
  /\ q ∉ stopped_ports (trace (release p self w)).
Proof.
  intros Hne w. split; [|split; [|split]].
  - rewrite acquire_eq, store_mk. simpl.
    rewrite subscribers_insert_ne by done. split; [|done].
    destruct (_server_services w !! p); [done|by rewrite lookup_insert_ne].
  - rewrite release_subscribed, subscribers_insert_ne by done.
    split; [|done]. rewrite release_eq.
    destruct (decide _); [|done].
    destruct (_server_services w !! p);
      [by rewrite store_mk; simpl; rewrite lookup_delete_ne|done].
  - rewrite acquire_eq, trace_mk.
    by destruct (_server_services w !! p).
  - rewrite (release_trace_ok p self w (reachable_world_ok ops)).
    destruct (decide _); simpl; set_solver.
Qed.

Lemma other_ports_untouched_witness :
  let w :=
    run_ops [(script_env,
              OpSession (mkArgs None None 5151 false None true (Some 800)))]
            initial_world in
  (_server_services (store (acquire script_env 7000 2%positive w)) !! 5151
   = _server_services w !! 5151
   /\ subscribers
        (_subscribed_sessions (store (acquire script_env 7000 2%positive w)))
        5151
      = subscribers (_subscribed_sessions w) 5151)
  /\ (_server_services (store (release 7000 2%positive w)) !! 5151
      = _server_services w !! 5151
      /\ subscribers (_subscribed_sessions (store (release 7000 2%positive w)))
           5151
         = subscribers (_subscribed_sessions w) 5151)
  /\ stopped_ports (trace (acquire script_env 7000 2%positive w)) = []
  /\ 5151 ∉ stopped_ports (trace (release 7000 2%positive w)).
Proof.
  apply (other_ports_untouched
           [(script_env,
             OpSession (mkArgs None None 5151 false None true (Some 800)))]
           script_env 7000 5151 2%positive).
  discriminate.
Defined.

(** ** What [launch_app] logs *)

Lemma infos_app t1 t2 : infos (t1 ++ t2) = infos t1 ++ infos t2.
Proof.
  induction t1 as [|e t1 IH]; [done|]. destruct e; simpl; by rewrite ?IH.
Qed.

Lemma launch_app_trace env dataset view port remote desktop auto height
    w w1 t1 id s :
  close_app w = (Ret tt, w1, t1) ->
  let r := __init__ env dataset view port remote desktop auto height w1 in
  outcome r = Ret id ->
  heap (store r) !! id = Some s ->
  trace (launch_app env dataset view port remote desktop auto height w)
  = t1 ++ trace r
    ++ (if _remote s then [EInfo (_REMOTE_INSTRUCTIONS (_port s))]
        else if default false (_desktop s) then [EInfo _APP_DESKTOP_MESSAGE]
        else if negb (bool_decide (_get_context env = _NONE)) && negb auto
        then [EInfo _APP_NOTEBOOK_MESSAGE]
        else if decide (_get_context env = _NONE)
        then [EInfo (_APP_WEB_MESSAGE port)]
        else []).
Proof.
  intros Hclose r Hout Hs.
  unfold launch_app. unfold bind at 1. rewrite Hclose.
  unfold bind at 1. fold r.
  destruct r as [[o w2] t2] eqn:Hr. unfold outcome in Hout. simpl in Hout.
  subst o. rewrite store_mk in Hs. rewrite trace_mk.
  assert (Hs' : heap (with__session (Some id) w2) !! id = Some s) by done.
  unfold bind at 1, modify at 1.
  unfold bind at 1. rewrite (on_session_gets _ _ s _ Hs').
  unfold bind at 1. rewrite (on_session_gets _ _ s _ Hs').
  unfold bind at 1. rewrite (on_session_gets _ _ s _ Hs').
  unfold bind, emit, ret.
  destruct (_remote s); [simpl; by rewrite ?app_nil_r|].
  destruct (default false (_desktop s)); [simpl; by rewrite ?app_nil_r|].
  destruct (negb (bool_decide (_get_context env = _NONE)) && negb auto);
    [simpl; by rewrite ?app_nil_r|].
  destruct (decide (_get_context env = _NONE));
    simpl; by rewrite ?app_nil_r.
Qed.

(** X21: in every world a program can reach, [launch_app] logs one line
    at most, and only when it returns: the remote instructions for the
    port of a remote session; else the desktop message of a desktop
    session; else, in a notebook, the hint at [session.show()] when
    [auto] is off and nothing when it is on; else the web address of the
    port. *)
Theorem launch_app_logs_one_message
    (ops : list (Env * Op)) (env : Env) (a : Args) :
  let w := run_ops ops initial_world in
  infos (trace (launch_app env (arg_dataset a) (arg_view a) (arg_port a)
                  (arg_remote a) (arg_desktop a) (arg_auto a)
                  (arg_height a) w))
  = match construction_error env (arg_remote a) (arg_desktop a) with
    | Some _ => []
    | None => launch_message env a
    end.
Proof.
  intros w.
  destruct (world_ok_close_app w (reachable_world_ok ops))
    as (Hret & _ & _ & _).
  pose proof (close_app_eq w) as Hclose.
  destruct (close_app w) as [[o w1] t1] eqn:Hcl.
  unfold outcome in Hret. simpl in Hret. subst o.
  assert (Ht1 : infos t1 = []).
  { destruct (_session w) as [id|]; [|by injection Hclose as -> ->].
    destruct (heap w !! id) as [s|]; [|discriminate Hclose].
    injection Hclose as -> ->. rewrite close__eq, trace_mk.
    by destruct (_remote s). }
  destruct (__init__self_table env (arg_dataset a) (arg_view a) (arg_port a)
              (arg_remote a) (arg_desktop a) (arg_auto a) (arg_height a))
    as (Hout & _ & _ & _ & _ & Hinfo).
  destruct (__init__self_config env (arg_dataset a) (arg_view a) (arg_port a)
              (arg_remote a) (arg_desktop a) (arg_auto a) (arg_height a))
    as (Hp & _ & Hd & _ & Hr & _).
  assert (Hinit : infos (trace (__init__ env (arg_dataset a) (arg_view a)
                                  (arg_port a) (arg_remote a) (arg_desktop a)
                                  (arg_auto a) (arg_height a) w1)) = []).
  { rewrite __init___trace, infos_app, Hinfo, acquire_eq, trace_mk.
    by destruct (_server_services w1 !! arg_port a). }
  destruct (construction_error env (arg_remote a) (arg_desktop a)) as [e|]
    eqn:Herr.
  - destruct (launch_app_eq env (arg_dataset a) (arg_view a) (arg_port a)
                (arg_remote a) (arg_desktop a) (arg_auto a) (arg_height a)
                w w1 t1 Hcl) as (info & _ & ->).
    rewrite __init___outcome, Hout. rewrite trace_mk.
    by rewrite infos_app, Ht1, Hinit.
  - rewrite (launch_app_trace env (arg_dataset a) (arg_view a) (arg_port a)
               (arg_remote a) (arg_desktop a) (arg_auto a) (arg_height a)
               w w1 t1 (next_id w1)
               (store (__init__self env (arg_dataset a) (arg_view a)
                         (arg_desktop a)
                         (blank_session env (arg_port a) (arg_remote a)
                            (arg_auto a) (arg_height a)))) Hcl).
    + rewrite !infos_app, Ht1, Hinit, Hp, Hd, Hr. simpl.
      unfold launch_message, resolved_desktop.
      destruct (arg_remote a); [done|].
      destruct (match arg_desktop a with
                | Some b => b
                | None => _
                end); [done|].
      destruct (negb _ && negb _); [done|].
      by destruct (decide (_get_context env = _NONE));
        [rewrite bool_decide_eq_true_2|rewrite bool_decide_eq_false_2].
    + by rewrite __init___outcome, Hout.
    + rewrite __init___heap. apply lookup_insert_eq.
Qed.
